(** * Ad click fraud detection: scoring pipeline and session aggregation

    A shallow embedding of [database.py] ([log_click],
    [update_session_summary], [get_ad_with_advertiser]),
    [feature_builder.py] ([FeatureBuilder.build]) and [main.py]
    ([get_risk_level], [predict]).

    Modelling conventions.
    - A Python [float] (and a SQLite [REAL]) is an exact rational, [Qc].
      Order comparisons and the builtins [min]/[max] never round, so they
      are exact on the value of a finite float; the division and the sums in
      [FeatureBuilder.build] are taken unrounded.  NaN and the infinities
      are outside the model.
    - A Python [int] is a [Z]; a SQLite [INTEGER] holds signed 64 bits,
      and [sqlite3] raises [OverflowError] when a statement is executed
      with an [int] outside that range.  The functions that bind integers
      of the request, [get_ad_with_advertiser] and [log_click], have that
      error; [update_session_summary] is only called by [log_click], after
      its [INSERT] has bound the same integers.  The account, ad and
      statistics functions are taken on the ids SQLite assigned, which it
      can bind.  [build] is taken on clicks whose count a float holds
      (beyond the float range the division raises).
    - The SQLite database is a record of tables.  A table that is looked up
      by a unique key is a [gmap]; the append-only [click_logs] table is a
      list in insertion order.
    - A raised exception is [None]; a function that writes to the database
      returns the new database.  A connection that is dropped without
      [commit] leaves the database as it was.
    - The wall clock is an explicit input. *)

From Stdlib Require Import QArith Qcanon.
From stdpp Require Import base numbers option list strings gmap.

Local Open Scope Qc_scope.

(** ** Numbers *)

(** The decimal literal [n/d], e.g. [0.1] is [dec 1 10]. *)
Definition dec (n : Z) (d : positive) : Qc := Q2Qc (n # d).

(** Python's two-argument [min(a, b)]: the first argument is kept unless the
    second is strictly smaller. *)
Definition py_min (a b : Qc) : Qc := if decide (b < a) then b else a.

(** Python's two-argument [max(a, b)]: the first argument is kept unless the
    second is strictly larger. *)
Definition py_max (a b : Qc) : Qc := if decide (a < b) then b else a.

(** Python's [min] on two integers. *)
Definition py_min_int (a b : Z) : Z := if decide (b < a)%Z then b else a.

(** The integers [sqlite3] binds as a statement parameter: those of signed
    64 bits.  For any other it raises [OverflowError]. *)
Definition fits_int64 (z : Z) : bool :=
  bool_decide (- 2 ^ 63 <= z < 2 ^ 63)%Z.

(** ** Tables of [database.py] *)

Record advertiser_row := {
  adv_name : string;
  adv_email : string;
  adv_password_hash : string
}.

Record ad_row := {
  ad_advertiser_id : Z;
  ad_title : string;
  ad_description : option string;
  ad_image_url : option string;
  ad_target_url : option string;
  ad_is_active : bool
}.

Record click_log_row := {
  cl_ad_id : Z;
  cl_advertiser_id : Z;
  cl_session_id : string;
  cl_clicks_per_session : Z;
  cl_time_gap_seconds : Qc;
  cl_session_duration_minutes : Qc;
  cl_user_agent_category : Z;
  cl_is_fraud : bool;
  cl_fraud_probability : Qc;
  cl_risk_level : string;
  cl_model_used : string;
  cl_clicked_at : string
}.

(** One row of [session_summary]; the [session_id] column, which is
    [UNIQUE], is the key of the table. *)
Record summary_row := {
  ss_ad_id : Z;
  ss_advertiser_id : Z;
  ss_ad_title : string;
  ss_clicks_per_session : Z;
  ss_session_duration_minutes : Qc;
  min_gap : Qc;
  max_gap : Qc;
  ss_is_fraud : bool;
  ss_fraud_probability : Qc;
  ss_risk_level : string;
  ss_model_used : string;
  last_updated : string
}.

Record db := {
  advertisers : gmap Z advertiser_row;
  ads : gmap Z ad_row;
  click_logs : list click_log_row;
  session_summary : gmap string summary_row
}.

(** The clock readings one request takes: [datetime.now] in the
    Asia/Kolkata zone, formatted, once in [log_click] and once in the
    [UPDATE] of [update_session_summary], and SQLite's [CURRENT_TIMESTAMP],
    the default of [last_updated] on [INSERT]. *)
Record clock := {
  now_ist : string;
  now_ist_update : string;
  current_timestamp : string
}.

Definition with_click_logs (d : db) (l : list click_log_row) : db :=
  {| advertisers := advertisers d; ads := ads d;
     click_logs := l; session_summary := session_summary d |}.

Definition with_session_summary (d : db) (t : gmap string summary_row) : db :=
  {| advertisers := advertisers d; ads := ads d;
     click_logs := click_logs d; session_summary := t |}.

(** The value the [INSERT] branch stores in [min_gap]. *)
Definition sentinel : Qc := dec 999999 1.

(** ** [update_session_summary] *)

(** The two reductions of the [if existing:] branch. *)
Definition new_min_gap (current_min_gap time_gap_seconds : Qc) : Qc :=
  if decide (0 < time_gap_seconds)
  then py_min current_min_gap time_gap_seconds
  else current_min_gap.

Definition new_max_gap (current_max_gap time_gap_seconds : Qc) : Qc :=
  py_max current_max_gap time_gap_seconds.

(** The row the [UPDATE] statement leaves: the columns it does not set keep
    the value of the existing row. *)
Definition updated_row (existing : summary_row) (clk : clock)
    (clicks_per_session : Z) (session_duration_minutes : Qc)
    (time_gap_seconds : Qc) (is_fraud : bool) (fraud_probability : Qc)
    (risk_level model_used : string) : summary_row :=
  let current_min_gap := min_gap existing in
  let current_max_gap := max_gap existing in
  let existing_fraud := ss_is_fraud existing in
  let final_is_fraud := existing_fraud || is_fraud in
  let final_fraud_prob :=
    if final_is_fraud then fraud_probability else fraud_probability in
  let final_risk_level :=
    if final_is_fraud then risk_level else risk_level in
  {| ss_ad_id := ss_ad_id existing;
     ss_advertiser_id := ss_advertiser_id existing;
     ss_ad_title := ss_ad_title existing;
     ss_clicks_per_session := clicks_per_session;
     ss_session_duration_minutes := session_duration_minutes;
     min_gap := new_min_gap current_min_gap time_gap_seconds;
     max_gap := new_max_gap current_max_gap time_gap_seconds;
     ss_is_fraud := final_is_fraud;
     ss_fraud_probability := final_fraud_prob;
     ss_risk_level := final_risk_level;
     ss_model_used := model_used;
     last_updated := now_ist_update clk |}.

(** The row the [INSERT] statement creates. *)
Definition created_row (title : string) (clk : clock)
    (ad_id advertiser_id : Z)
    (clicks_per_session : Z) (session_duration_minutes : Qc)
    (is_fraud : bool) (fraud_probability : Qc)
    (risk_level model_used : string) : summary_row :=
  {| ss_ad_id := ad_id;
     ss_advertiser_id := advertiser_id;
     ss_ad_title := title;
     ss_clicks_per_session := clicks_per_session;
     ss_session_duration_minutes := session_duration_minutes;
     min_gap := sentinel;
     max_gap := 0;
     ss_is_fraud := is_fraud;
     ss_fraud_probability := fraud_probability;
     ss_risk_level := risk_level;
     ss_model_used := model_used;
     last_updated := current_timestamp clk |}.

Definition update_session_summary (cursor : db) (clk : clock)
    (session_id : string) (ad_id advertiser_id : Z)
    (clicks_per_session : Z) (session_duration_minutes : Qc)
    (time_gap_seconds : Qc) (is_fraud : bool) (fraud_probability : Qc)
    (risk_level model_used : string) : option db :=
  (* SELECT title FROM ads WHERE id = ?;  fetchone()[0] *)
  match ads cursor !! ad_id with
  | None => None
  | Some ad =>
    let title := ad_title ad in
    (* SELECT min_gap, max_gap, is_fraud FROM session_summary ... *)
    match session_summary cursor !! session_id with
    | Some existing =>
      Some (with_session_summary cursor
        (<[session_id :=
             updated_row existing clk clicks_per_session
               session_duration_minutes time_gap_seconds is_fraud
               fraud_probability risk_level model_used]>
           (session_summary cursor)))
    | None =>
      Some (with_session_summary cursor
        (<[session_id :=
             created_row title clk ad_id advertiser_id clicks_per_session
               session_duration_minutes is_fraud fraud_probability
               risk_level model_used]>
           (session_summary cursor)))
    end
  end.

(** ** [log_click] *)

(** [cursor.lastrowid] after the insert: [click_logs] is [AUTOINCREMENT]
    and no row is ever deleted, so it is the number of rows. *)
Definition lastrowid (d : db) : Z := Z.of_nat (length (click_logs d)).

Definition log_click (d : db) (clk : clock)
    (ad_id advertiser_id : Z) (session_id : string)
    (clicks_per_session : Z) (time_gap_seconds : Qc)
    (session_duration_minutes : Qc) (user_agent_category : Z)
    (is_fraud : bool) (fraud_probability : Qc)
    (risk_level model_used : string) : option (Z * db) :=
  let clicked_at := now_ist clk in
  (* the parameters of the INSERT are bound: OverflowError *)
  if negb (fits_int64 ad_id && fits_int64 advertiser_id
           && fits_int64 clicks_per_session
           && fits_int64 user_agent_category) then None else
  let cursor :=
    with_click_logs d (click_logs d ++
      [ {| cl_ad_id := ad_id;
           cl_advertiser_id := advertiser_id;
           cl_session_id := session_id;
           cl_clicks_per_session := clicks_per_session;
           cl_time_gap_seconds := time_gap_seconds;
           cl_session_duration_minutes := session_duration_minutes;
           cl_user_agent_category := user_agent_category;
           cl_is_fraud := is_fraud;
           cl_fraud_probability := fraud_probability;
           cl_risk_level := risk_level;
           cl_model_used := model_used;
           cl_clicked_at := clicked_at |} ]) in
  let click_id := lastrowid cursor in
  match update_session_summary cursor clk session_id ad_id advertiser_id
          clicks_per_session session_duration_minutes time_gap_seconds
          is_fraud fraud_probability risk_level model_used with
  | None => None
  | Some committed => Some (click_id, committed)
  end.

(** ** [get_ad_with_advertiser] *)

(** The ad joined with its advertiser.  The outer [None] is the
    [OverflowError] of binding an [ad_id] outside signed 64 bits; the
    function answers [Some None] (Python's [None]) when the ad is missing,
    and also when the advertiser it names is. *)
Definition get_ad_with_advertiser (d : db) (ad_id : Z)
    : option (option (ad_row * string)) :=
  if negb (fits_int64 ad_id) then None else
  match ads d !! ad_id with
  | None => Some None
  | Some a =>
    match advertisers d !! ad_advertiser_id a with
    | None => Some None
    | Some adv => Some (Some (a, adv_name adv))
    end
  end.

(** ** [FeatureBuilder.build] *)

(** The request body of [/predict] ([ClickData] in [main.py]). *)
Record ClickData := {
  session_id : string;
  clicks_per_session : Z;
  time_gap_seconds : Qc;
  session_duration_minutes : Qc;
  ad_id : Z;
  user_agent_category : Z
}.

(** The single row of the data frame [build] returns. *)
Record feature_row := {
  device_type : string;
  browser : string;
  operating_system : string;
  ad_position : string;
  device_ip_reputation : string;
  click_duration : Qc;
  scroll_depth : Z;
  mouse_movement : Z;
  keystrokes_detected : Z;
  click_frequency : Qc;
  time_since_last_click : Qc;
  VPN_usage : Z;
  proxy_usage : Z;
  bot_likelihood_score : Qc
}.

Definition build (click : ClickData) : feature_row :=
  let click_frequency :=
    Qc_of_Z (clicks_per_session click)
    / py_max (session_duration_minutes click) (dec 1 10) in
  let bot_score := 0 in
  let bot_score :=
    if decide (10 < clicks_per_session click)%Z
    then bot_score + dec 3 10 else bot_score in
  let bot_score :=
    if decide (time_gap_seconds click < 1)
    then bot_score + dec 4 10 else bot_score in
  let bot_score :=
    if decide (dec 8 1 < click_frequency)
    then bot_score + dec 3 10 else bot_score in
  let bot_score := py_min bot_score 1 in
  let device_type :=
    if decide (user_agent_category click = 1%Z) then "Desktop"
    else if decide (user_agent_category click = 2%Z) then "Mobile"
    else "Tablet" in
  let browser := "Chrome" in
  let operating_system := "Windows" in
  let ad_position := "Top" in
  let device_ip_reputation :=
    if decide (dec 6 10 < bot_score) then "Bad" else "Good" in
  {| device_type := device_type;
     browser := browser;
     operating_system := operating_system;
     ad_position := ad_position;
     device_ip_reputation := device_ip_reputation;
     click_duration := time_gap_seconds click;
     scroll_depth := py_min_int (clicks_per_session click * 10) 100;
     mouse_movement := py_min_int (clicks_per_session click * 40) 400;
     keystrokes_detected := if decide (dec 6 10 < bot_score) then 0 else 2;
     click_frequency := click_frequency;
     time_since_last_click := time_gap_seconds click;
     VPN_usage := if decide (dec 7 10 < bot_score) then 1 else 0;
     proxy_usage := if decide (dec 7 10 < bot_score) then 1 else 0;
     bot_likelihood_score := bot_score |}.

(** ** [get_risk_level] and [predict] *)

Definition get_risk_level (prob : Qc) : string :=
  if decide (prob < dec 1 10) then "Low"
  else if decide (prob < dec 8 10) then "Medium"
  else "High".

(** The fraud verdict [predict] takes from the probability:
    [fraud_prob >= 0.5]. *)
Definition verdict (fraud_prob : Qc) : bool :=
  bool_decide (dec 1 2 <= fraud_prob).

(** The module globals of [main.py]: the [model] dictionary and
    [model_name].  The scaler maps the feature row to the processed input
    and the classifier maps that to its first output, read as a float. *)
Record globals := {
  classifier : option (list Qc -> Qc);
  scaler : option (feature_row -> list Qc);
  model_name : option string
}.

Record PredictionResponse := {
  pr_is_fraud : bool;
  pr_fraud_probability : Qc;
  pr_risk_level : string;
  pr_model_used : string
}.

(** How a request ends: the response model, an [HTTPException] raised by
    the handler, or any other exception escaping it. *)
Inductive outcome :=
  | Returned (r : PredictionResponse)
  | HTTPException (status_code : Z) (detail : string)
  | Uncaught.

Definition predict (g : globals) (d : db) (clk : clock) (click : ClickData)
    : outcome * db :=
  match classifier g with
  | None => (HTTPException 503 "Model not loaded", d)
  | Some clf =>
    match get_ad_with_advertiser d (ad_id click) with
    | None => (Uncaught, d)  (* OverflowError *)
    | Some None => (HTTPException 404 "Ad not found", d)
    | Some (Some ad_info) =>
      match scaler g with
      | None => (Uncaught, d)  (* None has no attribute transform *)
      | Some transform =>
        let X := build click in
        let X_processed := transform X in
        let fraud_prob := clf X_processed in
        let fraud_prob := py_max fraud_prob (dec 1 1000) in
        let is_fraud := verdict fraud_prob in
        let risk := get_risk_level fraud_prob in
        match model_name g with
        | None => (Uncaught, d)  (* click_logs.model_used is NOT NULL *)
        | Some name =>
          match log_click d clk (ad_id click)
                  (ad_advertiser_id (fst ad_info)) (session_id click)
                  (clicks_per_session click) (time_gap_seconds click)
                  (session_duration_minutes click)
                  (user_agent_category click) is_fraud fraud_prob risk name
          with
          | None => (Uncaught, d)  (* the connection is never committed *)
          | Some (_, committed) =>
            (Returned {| pr_is_fraud := is_fraud;
                         pr_fraud_probability := fraud_prob;
                         pr_risk_level := risk;
                         pr_model_used := name |}, committed)
          end
        end
      end
    end
  end.

(** ** Sequences of clicks *)

(** The arguments of one [update_session_summary] call, with the clock
    readings of that call. *)
Record click := {
  c_clock : clock;
  c_session_id : string;
  c_ad_id : Z;
  c_advertiser_id : Z;
  c_clicks_per_session : Z;
  c_session_duration_minutes : Qc;
  c_time_gap_seconds : Qc;
  c_is_fraud : bool;
  c_fraud_probability : Qc;
  c_risk_level : string;
  c_model_used : string
}.

Definition apply_click (d : db) (c : click) : option db :=
  update_session_summary d (c_clock c) (c_session_id c) (c_ad_id c)
    (c_advertiser_id c) (c_clicks_per_session c)
    (c_session_duration_minutes c) (c_time_gap_seconds c) (c_is_fraud c)
    (c_fraud_probability c) (c_risk_level c) (c_model_used c).

(** The calls are made one after the other, each on the database the
    previous one left. *)
Fixpoint apply_clicks (d : db) (cs : list click) : option db :=
  match cs with
  | [] => Some d
  | c :: cs' =>
    match apply_click d c with
    | None => None
    | Some d' => apply_clicks d' cs'
    end
  end.

(** The clicks of a sequence that belong to one session. *)
Definition for_session (sid : string) (cs : list click) : list click :=
  filter (fun c => c_session_id c = sid) cs.

(** What one later click does to the row of its session. *)
Definition fold_click (r : summary_row) (c : click) : summary_row :=
  updated_row r (c_clock c) (c_clicks_per_session c)
    (c_session_duration_minutes c) (c_time_gap_seconds c) (c_is_fraud c)
    (c_fraud_probability c) (c_risk_level c) (c_model_used c).

(** What the first click of a session stores. *)
Definition first_click (title : string) (c : click) : summary_row :=
  created_row title (c_clock c) (c_ad_id c) (c_advertiser_id c)
    (c_clicks_per_session c) (c_session_duration_minutes c) (c_is_fraud c)
    (c_fraud_probability c) (c_risk_level c) (c_model_used c).

(** Every click of the sequence names an ad of the catalogue. *)
Definition ads_known (d : db) (cs : list click) : Prop :=
  Forall (fun c => is_Some (ads d !! c_ad_id c)) cs.

(** [x] is the least (greatest) element of [l]. *)
Definition is_minimum (x : Qc) (l : list Qc) : Prop :=
  x ∈ l /\ Forall (fun y => x <= y) l.

Definition is_maximum (x : Qc) (l : list Qc) : Prop :=
  x ∈ l /\ Forall (fun y => y <= x) l.

Definition positive_gaps (gs : list Qc) : list Qc :=
  filter (fun g => 0 < g) gs.

(** ** Statements and sample data of the properties *)

(** Every advertiser id of the table is one SQLite holds, an integer of
    signed 64 bits. *)
Definition advertiser_ids_fit (d : db) : Prop :=
  map_Forall (fun i _ => fits_int64 i = true) (advertisers d).

Definition sample_clock : clock :=
  {| now_ist := "2024-05-01 15:30:00";
     now_ist_update := "2024-05-01 15:30:00";
     current_timestamp := "2024-05-01 10:00:00" |}.

(** The first advertiser and the first ad of [insert_sample_data], and no
    click yet. *)
Definition sample_db : db :=
  {| advertisers :=
       {[ 1%Z := {| adv_name := "TechCorp";
                    adv_email := "ads@techcorp.com";
                    adv_password_hash := "demo123-sha256" |} ]};
     ads :=
       {[ 1%Z := {| ad_advertiser_id := 1;
                    ad_title := "Latest Smartphone";
                    ad_description :=
                      Some "Revolutionary new phone with AI features";
                    ad_image_url := Some "/static/images/phone.jpg";
                    ad_target_url := Some "https://techcorp.com/phone";
                    ad_is_active := true |} ]};
     click_logs := [];
     session_summary := ∅ |}.

(** A click on session ["s1"] and ad 1 with the given count, duration, gap,
    verdict, probability and tier. *)
Definition s1_click (n : Z) (dur gap : Qc) (v : bool) (p : Qc)
    (risk : string) : click :=
  {| c_clock := sample_clock;
     c_session_id := "s1";
     c_ad_id := 1;
     c_advertiser_id := 1;
     c_clicks_per_session := n;
     c_session_duration_minutes := dur;
     c_time_gap_seconds := gap;
     c_is_fraud := v;
     c_fraud_probability := p;
     c_risk_level := risk;
     c_model_used := "ANN Click Fraud Detection Model" |}.

(** The row of session [sid] after the calls [cs], when none of them
    raised. *)
Definition row_after (d : db) (cs : list click) (sid : string)
    : option summary_row :=
  apply_clicks d cs ≫= fun d' => session_summary d' !! sid.

(** The gap rule in the words of the specification: [min_gap] is the least
    strictly positive gap seen, or the sentinel when there is none, and
    [max_gap] is the greatest gap seen, the gaps seen being those of all the
    clicks of the session, the creating one included. *)
Definition spec_min_gap (gaps : list Qc) (m : Qc) : Prop :=
  match positive_gaps gaps with
  | [] => m = sentinel
  | g :: gs => is_minimum m (g :: gs)
  end.

Definition spec_max_gap (gaps : list Qc) (m : Qc) : Prop :=
  is_maximum m gaps.

(** The flag a session carries before a sequence of calls: that of its row,
    or [false] when it has none. *)
Definition flag_before (d : db) (sid : string) : bool :=
  from_option ss_is_fraud false (session_summary d !! sid).

(** Two rows store the same summary: they agree on every column a call
    writes, the time stamp apart. *)
Definition same_summary (r1 r2 : summary_row) : Prop :=
  min_gap r1 = min_gap r2
  /\ max_gap r1 = max_gap r2
  /\ ss_is_fraud r1 = ss_is_fraud r2
  /\ ss_fraud_probability r1 = ss_fraud_probability r2
  /\ ss_risk_level r1 = ss_risk_level r2
  /\ ss_clicks_per_session r1 = ss_clicks_per_session r2
  /\ ss_session_duration_minutes r1 = ss_session_duration_minutes r2
  /\ ss_model_used r1 = ss_model_used r2.

(** The same click arguments, at another time. *)
Definition at_clock (c : click) (clk : clock) : click :=
  {| c_clock := clk;
     c_session_id := c_session_id c;
     c_ad_id := c_ad_id c;
     c_advertiser_id := c_advertiser_id c;
     c_clicks_per_session := c_clicks_per_session c;
     c_session_duration_minutes := c_session_duration_minutes c;
     c_time_gap_seconds := c_time_gap_seconds c;
     c_is_fraud := c_is_fraud c;
     c_fraud_probability := c_fraud_probability c;
     c_risk_level := c_risk_level c;
     c_model_used := c_model_used c |}.

(** The databases the service can be in, as far as [session_summary] goes:
    the table is created empty, [log_click] is the only function that
    writes to it, and the other functions of [database.py] leave it as it
    is. *)
Inductive reachable : db -> Prop :=
  | reachable_init d :
      session_summary d = ∅ -> reachable d
  | reachable_log_click d clk ad adv sid n gap dur uac v p risk name cid d' :
      reachable d ->
      log_click d clk ad adv sid n gap dur uac v p risk name
        = Some (cid, d') ->
      reachable d'
  | reachable_other d d' :
      reachable d ->
      session_summary d' = session_summary d ->
      reachable d'.

Definition min_gap_bounded (d : db) : Prop :=
  forall sid r, session_summary d !! sid = Some r -> min_gap r <= sentinel.

(** The database after the first click of the scenario has gone through
    [log_click]. *)
Definition after_first_click : db :=
  from_option snd sample_db
    (log_click sample_db sample_clock 1 1 "s1" 1 0 (dec 1 2) 1 false
       (dec 1 50) "Low" "ANN Click Fraud Detection Model").

(** The globals before [load_model] has run, the globals after it with a
    model that answers the constant [r], and a first click on ad [ad]. *)
Definition not_loaded : globals :=
  {| classifier := None; scaler := None; model_name := None |}.

Definition loaded (r : Qc) : globals :=
  {| classifier := Some (fun _ => r);
     scaler := Some (fun x => [click_duration x; click_frequency x;
                               bot_likelihood_score x]);
     model_name := Some "ANN Click Fraud Detection Model" |}.

Definition first_request (ad : Z) : ClickData :=
  {| session_id := "s1";
     clicks_per_session := 1;
     time_gap_seconds := 0;
     session_duration_minutes := dec 1 2;
     ad_id := ad;
     user_agent_category := 1 |}.

(** The greater and the lesser of two rationals. *)
Definition Qc_max (a b : Qc) : Qc := if decide (a <= b) then b else a.
Definition Qc_min (a b : Qc) : Qc := if decide (a <= b) then a else b.

(** The two derived features in the words of the specification: the click
    frequency divides by the duration floored at 0.1, and the bot score adds
    the weights of the three signals that fire and is capped at 1. *)
Definition spec_click_frequency (click : ClickData) : Qc :=
  Qc_of_Z (clicks_per_session click)
  / Qc_max (session_duration_minutes click) (dec 1 10).

Definition signal (fires : bool) (weight : Qc) : Qc :=
  if fires then weight else 0.

Definition spec_bot_score (click : ClickData) : Qc :=
  Qc_min
    (signal (bool_decide (10 < clicks_per_session click)%Z) (dec 3 10)
     + signal (bool_decide (time_gap_seconds click < 1)) (dec 4 10)
     + signal (bool_decide (dec 8 1 < spec_click_frequency click)) (dec 3 10))
    1.

(** ** Sample data of the further properties *)



(** What every stored pair of gaps satisfies. *)
Definition gaps_in_range (r : summary_row) : Prop :=
  0 < min_gap r
  /\ 0 <= max_gap r
  /\ (min_gap r = sentinel \/ min_gap r <= max_gap r).

(** ** [load_model] *)



(** ** Accounts and ads: [create_advertiser], [authenticate_advertiser],
       [get_advertiser_by_id], [create_ad] *)

(** The dictionary with the keys [id], [name] and [email] that the account
    queries answer and that [main.py] keeps in [sessions]. *)
Record advertiser_info := {
  ai_id : Z;
  ai_name : string;
  ai_email : string
}.

Definition with_advertisers (d : db) (t : gmap Z advertiser_row) : db :=
  {| advertisers := t; ads := ads d;
     click_logs := click_logs d; session_summary := session_summary d |}.

Definition with_ads (d : db) (t : gmap Z ad_row) : db :=
  {| advertisers := advertisers d; ads := t;
     click_logs := click_logs d; session_summary := session_summary d |}.

(** Some account has this address: the [UNIQUE] constraint on
    [advertisers.email] then rejects an insert. *)
Definition email_taken (d : db) (email : string) : Prop :=
  map_Exists (fun _ r => adv_email r = email) (advertisers d).

(** [create_advertiser].  [hash_password] is SHA-256 in hexadecimal, an
    input here; [rowid] is the id SQLite assigns to the new row, which
    [AUTOINCREMENT] takes above every id of the table.  A rejected insert
    is caught and answered with [None]; nothing is committed. *)
Definition create_advertiser (hash_password : string -> string) (d : db)
    (rowid : Z) (name email password : string) : option Z * db :=
  let password_hash := hash_password password in
  if decide (email_taken d email) then (None, d)
  else (Some rowid,
        with_advertisers d
          (<[rowid := {| adv_name := name;
                         adv_email := email;
                         adv_password_hash := password_hash |}]>
             (advertisers d))).

Definition info_of (id : Z) (r : advertiser_row) : advertiser_info :=
  {| ai_id := id; ai_name := adv_name r; ai_email := adv_email r |}.

(** [authenticate_advertiser]: the first row the [SELECT] on address and
    password hash gives, if any. *)
Definition authenticate_advertiser (hash_password : string -> string)
    (d : db) (email password : string) : option advertiser_info :=
  let password_hash := hash_password password in
  let rows :=
    filter (fun ir => adv_email ir.2 = email
                      /\ adv_password_hash ir.2 = password_hash)
      (map_to_list (advertisers d)) in
  match rows with
  | [] => None
  | (id, r) :: _ => Some (info_of id r)
  end.

Definition get_advertiser_by_id (d : db) (advertiser_id : Z)
    : option advertiser_info :=
  info_of advertiser_id <$> advertisers d !! advertiser_id.

(** [create_ad]: the insert has no constraint that can fail ([FOREIGN KEY]
    is declared but SQLite does not enforce it unless asked to);
    [is_active] takes its default, 1. *)
Definition create_ad (d : db) (rowid : Z) (advertiser_id : Z)
    (title description image_url target_url : string) : Z * db :=
  (rowid,
   with_ads d
     (<[rowid := {| ad_advertiser_id := advertiser_id;
                    ad_title := title;
                    ad_description := Some description;
                    ad_image_url := Some image_url;
                    ad_target_url := Some target_url;
                    ad_is_active := true |}]> (ads d))).

(** No two accounts share an address, as the [UNIQUE] constraint has it. *)
Definition emails_unique (d : db) : Prop :=
  forall i j r1 r2,
    advertisers d !! i = Some r1 -> advertisers d !! j = Some r2 ->
    adv_email r1 = adv_email r2 -> i = j.

(** A stand-in for SHA-256 to run the account functions on. *)
Definition sample_hash (password : string) : string :=
  "sha256:" +:+ password.

(** The sample catalogue after a second advertiser has signed up. *)
Definition accounts_db : db :=
  (create_advertiser sample_hash sample_db 2 "FashionBrand"
     "marketing@fashionbrand.com" "demo123").2.

(** ** Statistics: [get_advertiser_stats], [get_advertiser_ads] *)

(** SQL aggregates over the rows of a group: [COUNT] counts rows, [SUM] and
    [AVG] are [NULL] ([None]) over no rows. *)
Definition sql_count {A} (rows : list A) : Z := Z.of_nat (length rows).

Definition sql_sum (values : list Z) : option Z :=
  match values with
  | [] => None
  | _ => Some (foldr Z.add 0%Z values)
  end.

Definition sql_avg (values : list Qc) : option Qc :=
  match values with
  | [] => None
  | _ => Some (foldr Qcplus 0 values / Qc_of_Z (sql_count values))
  end.

(** [COALESCE(x, 0)]. *)
Definition coalesce_Z (x : option Z) : Z := default 0%Z x.
Definition coalesce_Qc (x : option Qc) : Qc := default 0 x.

(** [CASE WHEN is_fraud = 1 THEN 1 ELSE 0 END] and its complement. *)
Definition case_fraud (cl : click_log_row) : Z :=
  if cl_is_fraud cl then 1 else 0.
Definition case_genuine (cl : click_log_row) : Z :=
  if cl_is_fraud cl then 0 else 1.

(** The rows of [click_logs JOIN ads ON cl.ad_id = a.id] whose ad belongs
    to the advertiser. *)
Definition clicks_of_advertiser (d : db) (advertiser_id : Z)
    : list click_log_row :=
  filter (fun cl => ad_advertiser_id <$> ads d !! cl_ad_id cl
                    = Some advertiser_id)
    (click_logs d).

(** The first query of [get_advertiser_stats]. *)
Record advertiser_stats := {
  total_clicks : Z;
  fraud_clicks : option Z;
  genuine_clicks : option Z;
  avg_fraud_prob : option Qc
}.

Definition get_advertiser_stats (d : db) (advertiser_id : Z)
    : advertiser_stats :=
  let rows := clicks_of_advertiser d advertiser_id in
  {| total_clicks := sql_count rows;
     fraud_clicks := sql_sum (case_fraud <$> rows);
     genuine_clicks := sql_sum (case_genuine <$> rows);
     avg_fraud_prob := sql_avg (cl_fraud_probability <$> rows) |}.

(** The rows [ads LEFT JOIN click_logs] gives for one ad: its clicks, or
    one row with every [click_logs] column [NULL] when it has none. *)
Definition left_join_clicks (d : db) (ad : Z) : list (option click_log_row) :=
  match filter (fun cl => cl_ad_id cl = ad) (click_logs d) with
  | [] => [None]
  | rows => Some <$> rows
  end.

(** One row of the second query of [get_advertiser_stats], the group of ad
    [ad]; the query gives these rows for the ads of the advertiser, by
    decreasing [clicks]. *)
Record ad_breakdown := {
  ab_id : Z;
  ab_title : string;
  ab_clicks : Z;
  ab_fraud_clicks : option Z;
  ab_avg_fraud_prob : option Qc
}.

Definition stats_row_of_ad (d : db) (advertiser_id ad : Z)
    : option ad_breakdown :=
  match ads d !! ad with
  | None => None
  | Some a =>
    if decide (ad_advertiser_id a = advertiser_id) then
      let rows := left_join_clicks d ad in
      Some {| ab_id := ad;
              ab_title := ad_title a;
              ab_clicks := sql_count rows;
              ab_fraud_clicks :=
                sql_sum (from_option case_fraud 0%Z <$> rows);
              ab_avg_fraud_prob :=
                sql_avg (omap (fmap cl_fraud_probability) rows) |}
    else None
  end.

(** One row of [get_advertiser_ads], the group of ad [ad]; the query gives
    these rows for the ads of the advertiser, newest first. *)
Record ad_with_clicks := {
  aw_id : Z;
  aw_ad : ad_row;
  aw_total_clicks : Z;
  aw_fraud_clicks : Z;
  aw_genuine_clicks : Z;
  aw_avg_fraud_prob : Qc
}.

Definition ads_row_of_ad (d : db) (advertiser_id ad : Z)
    : option ad_with_clicks :=
  match ads d !! ad with
  | None => None
  | Some a =>
    if decide (ad_advertiser_id a = advertiser_id) then
      let rows := left_join_clicks d ad in
      Some {| aw_id := ad;
              aw_ad := a;
              aw_total_clicks := coalesce_Z (Some (sql_count (omap id rows)));
              aw_fraud_clicks :=
                coalesce_Z (sql_sum (from_option case_fraud 0%Z <$> rows));
              aw_genuine_clicks :=
                coalesce_Z (sql_sum (from_option case_genuine 0%Z <$> rows));
              aw_avg_fraud_prob :=
                coalesce_Qc
                  (sql_avg (omap (fmap cl_fraud_probability) rows)) |}
    else None
  end.

(** ** Sessions of [main.py] *)

(** How a handler other than [predict] ends: with its answer, or with the
    [HTTPException] it raised. *)
Inductive reply (A : Type) :=
  | Answered (a : A)
  | Raised (status_code : Z) (detail : string).
Arguments Answered {A} a.
Arguments Raised {A} status_code detail.

(** [get_current_advertiser], on the [sessions] dictionary and the
    [session_id] cookie of the request, if it has one. *)
Definition get_current_advertiser (sessions : gmap string advertiser_info)
    (cookie : option string) : reply advertiser_info :=
  match cookie with
  | None => Raised 401 "Not authenticated"
  | Some session_id =>
    if decide (session_id = "") then Raised 401 "Not authenticated"
    else match sessions !! session_id with
         | None => Raised 401 "Not authenticated"
         | Some advertiser => Answered advertiser
         end
  end.

(** [signup] and [login], the handlers registered first for their routes.
    [token] is the [uuid4] string drawn for the session; the answer is the
    cookie that is set. *)
Definition signup (hash_password : string -> string) (d : db)
    (sessions : gmap string advertiser_info) (rowid : Z) (token : string)
    (name email password : string)
    : reply string * db * gmap string advertiser_info :=
  match create_advertiser hash_password d rowid name email password with
  | (None, _) => (Raised 400 "Email already registered", d, sessions)
  | (Some advertiser_id, d') =>
      (Answered token, d',
       <[token := {| ai_id := advertiser_id; ai_name := name;
                     ai_email := email |}]> sessions)
  end.

Definition login (hash_password : string -> string) (d : db)
    (sessions : gmap string advertiser_info) (token : string)
    (email password : string)
    : reply string * gmap string advertiser_info :=
  match authenticate_advertiser hash_password d email password with
  | None => (Raised 401 "Invalid credentials", sessions)
  | Some advertiser => (Answered token, <[token := advertiser]> sessions)
  end.

(** [logout]: the session of the cookie is deleted when there is one. *)
Definition logout (sessions : gmap string advertiser_info)
    (cookie : option string) : gmap string advertiser_info :=
  match cookie with
  | None => sessions
  | Some session_id =>
    if decide (session_id = "") then sessions
    else match sessions !! session_id with
         | None => sessions
         | Some _ => delete session_id sessions
         end
  end.

(** [get_stats], answering the totals of [get_advertiser_stats]. *)
Definition get_stats (sessions : gmap string advertiser_info) (d : db)
    (advertiser_id : Z) (cookie : option string) : reply advertiser_stats :=
  match get_current_advertiser sessions cookie with
  | Raised status_code detail => Raised status_code detail
  | Answered advertiser =>
    if decide (ai_id advertiser <> advertiser_id)
    then Raised 403 "Access denied"
    else Answered (get_advertiser_stats d advertiser_id)
  end.


(** A click on session ["s2"] and ad 1. *)
Definition s2_click (gap : Qc) (v : bool) (p : Qc) (risk : string) : click :=
  {| c_clock := sample_clock;
     c_session_id := "s2";
     c_ad_id := 1;
     c_advertiser_id := 1;
     c_clicks_per_session := 1;
     c_session_duration_minutes := dec 1 2;
     c_time_gap_seconds := gap;
     c_is_fraud := v;
     c_fraud_probability := p;
     c_risk_level := risk;
     c_model_used := "ANN Click Fraud Detection Model" |}.

(** * Properties *)

(** ** Python's [min] and [max] *)

Lemma py_min_cases (a b : Qc) : py_min a b = a \/ py_min a b = b.
Proof. unfold py_min. case_decide; auto. Qed.

Lemma py_min_le_l (a b : Qc) : py_min a b <= a.
Proof.
  unfold py_min. case_decide as H.
  - by apply Qclt_le_weak.
  - apply Qcle_refl.
Qed.

Lemma py_min_le_r (a b : Qc) : py_min a b <= b.
Proof.
  unfold py_min. case_decide as H.
  - apply Qcle_refl.
  - by apply Qcnot_lt_le.
Qed.

Lemma py_max_cases (a b : Qc) : py_max a b = a \/ py_max a b = b.
Proof. unfold py_max. case_decide; auto. Qed.

Lemma py_max_ge_l (a b : Qc) : a <= py_max a b.
Proof.
  unfold py_max. case_decide as H.
  - by apply Qclt_le_weak.
  - apply Qcle_refl.
Qed.

Lemma py_max_ge_r (a b : Qc) : b <= py_max a b.
Proof.
  unfold py_max. case_decide as H.
  - apply Qcle_refl.
  - by apply Qcnot_lt_le.
Qed.

Lemma py_min_absorb (a b : Qc) : a <= b -> py_min a b = a.
Proof.
  intros Hab. unfold py_min. case_decide as H; [|done].
  by apply Qclt_not_le in H.
Qed.

Lemma py_max_absorb (a b : Qc) : b <= a -> py_max a b = a.
Proof.
  intros Hab. unfold py_max. case_decide as H; [|done].
  by apply Qclt_not_le in H.
Qed.

Lemma new_min_gap_le (m g : Qc) : new_min_gap m g <= m.
Proof.
  unfold new_min_gap. case_decide; [apply py_min_le_l | apply Qcle_refl].
Qed.

Lemma new_min_gap_idem (m g : Qc) :
  new_min_gap (new_min_gap m g) g = new_min_gap m g.
Proof.
  unfold new_min_gap. case_decide; [|done].
  apply py_min_absorb, py_min_le_r.
Qed.

Lemma new_max_gap_idem (m g : Qc) :
  new_max_gap (new_max_gap m g) g = new_max_gap m g.
Proof. apply py_max_absorb, py_max_ge_r. Qed.

(** ** One call of [update_session_summary] *)

Lemma update_raises_iff d clk sid ad adv n dur gap v p risk name :
  update_session_summary d clk sid ad adv n dur gap v p risk name = None
  <-> ads d !! ad = None.
Proof.
  unfold update_session_summary.
  destruct (ads d !! ad); [|done].
  destruct (session_summary d !! sid); split; discriminate.
Qed.

(** A call that returns has written exactly one row, the one of its
    session, and nothing else. *)
Lemma apply_click_inv d c d' :
  apply_click d c = Some d' ->
  exists a, ads d !! c_ad_id c = Some a
    /\ advertisers d' = advertisers d
    /\ ads d' = ads d
    /\ click_logs d' = click_logs d
    /\ session_summary d' =
         <[c_session_id c :=
             match session_summary d !! c_session_id c with
             | Some r => fold_click r c
             | None => first_click (ad_title a) c
             end]> (session_summary d).
Proof.
  unfold apply_click, update_session_summary.
  destruct (ads d !! c_ad_id c) as [a|]; [|done].
  intros H. exists a.
  destruct (session_summary d !! c_session_id c);
    injection H as <-; done.
Qed.

Lemma apply_click_is_Some d c :
  is_Some (ads d !! c_ad_id c) -> is_Some (apply_click d c).
Proof.
  intros [a Ha]. unfold apply_click, update_session_summary. rewrite Ha.
  destruct (session_summary d !! c_session_id c); eauto.
Qed.

(** ** Sequences of calls *)

Lemma ads_known_step d d' c cs :
  ads d' = ads d -> ads_known d (c :: cs) -> ads_known d' cs.
Proof.
  unfold ads_known. intros Heq H. apply Forall_cons in H as [_ H].
  by rewrite Heq.
Qed.

(** Once the row of a session exists, a sequence of calls folds the clicks
    of that session into it, in order; clicks of other sessions leave it
    alone. *)
Lemma apply_clicks_existing cs : forall d sid r,
  session_summary d !! sid = Some r ->
  ads_known d cs ->
  exists d', apply_clicks d cs = Some d'
    /\ ads d' = ads d
    /\ session_summary d' !! sid
       = Some (foldl fold_click r (for_session sid cs)).
Proof.
  induction cs as [|c cs IH]; intros d sid r Hr Hads.
  - exists d. done.
  - assert (is_Some (apply_click d c)) as [d1 Hd1].
    { apply apply_click_is_Some. by apply Forall_cons in Hads as [? _]. }
    destruct (apply_click_inv _ _ _ Hd1) as (a & Ha & _ & Hads1 & _ & Hss).
    cbn [apply_clicks]. rewrite Hd1. unfold for_session.
    destruct (decide (c_session_id c = sid)) as [Heq|Hne].
    + rewrite filter_cons_True by done. cbn [foldl].
      destruct (IH d1 sid (fold_click r c)) as (d' & Hrun & Hads' & Hrow).
      { rewrite Hss, Heq, Hr. apply lookup_insert_eq. }
      { by eapply ads_known_step. }
      exists d'. by rewrite Hads'.
    + rewrite filter_cons_False by done.
      destruct (IH d1 sid r) as (d' & Hrun & Hads' & Hrow).
      { rewrite Hss. by rewrite lookup_insert_ne. }
      { by eapply ads_known_step. }
      exists d'. by rewrite Hads'.
Qed.

(** On a session without a row, the first click of the session creates the
    row and the later ones are folded into it. *)
Lemma apply_clicks_fresh cs : forall d sid c0 rest,
  session_summary d !! sid = None ->
  ads_known d cs ->
  for_session sid cs = c0 :: rest ->
  exists d' a, apply_clicks d cs = Some d'
    /\ ads d !! c_ad_id c0 = Some a
    /\ session_summary d' !! sid
       = Some (foldl fold_click (first_click (ad_title a) c0) rest).
Proof.
  induction cs as [|c cs IH]; intros d sid c0 rest Hnone Hads Hfor.
  - done.
  - assert (is_Some (apply_click d c)) as [d1 Hd1].
    { apply apply_click_is_Some. by apply Forall_cons in Hads as [? _]. }
    destruct (apply_click_inv _ _ _ Hd1) as (a & Ha & _ & Hads1 & _ & Hss).
    cbn [apply_clicks]. rewrite Hd1. unfold for_session in Hfor.
    destruct (decide (c_session_id c = sid)) as [Heq|Hne].
    + rewrite filter_cons_True in Hfor by done.
      injection Hfor as <- Hrest.
      destruct (apply_clicks_existing cs d1 sid (first_click (ad_title a) c))
        as (d' & Hrun & _ & Hrow).
      { rewrite Hss, Heq, Hnone. apply lookup_insert_eq. }
      { by eapply ads_known_step. }
      exists d', a. unfold for_session in Hrow. by rewrite Hrest in Hrow.
    + rewrite filter_cons_False in Hfor by done.
      destruct (IH d1 sid c0 rest) as (d' & a' & Hrun & Ha' & Hrow).
      { rewrite Hss. by rewrite lookup_insert_ne. }
      { by eapply ads_known_step. }
      { done. }
      exists d', a'. by rewrite <- Hads1.
Qed.

(** The three reductions, read off the folded row. *)
Lemma min_gap_foldl cs : forall r,
  min_gap (foldl fold_click r cs)
  = foldl new_min_gap (min_gap r) (c_time_gap_seconds <$> cs).
Proof. induction cs as [|c cs IH]; intros r; [done|]. cbn. by rewrite IH. Qed.

Lemma max_gap_foldl cs : forall r,
  max_gap (foldl fold_click r cs)
  = foldl new_max_gap (max_gap r) (c_time_gap_seconds <$> cs).
Proof. induction cs as [|c cs IH]; intros r; [done|]. cbn. by rewrite IH. Qed.

Lemma is_fraud_foldl cs : forall r,
  ss_is_fraud (foldl fold_click r cs)
  = ss_is_fraud r || existsb c_is_fraud cs.
Proof.
  induction cs as [|c cs IH]; intros r; cbn.
  - by rewrite orb_false_r.
  - rewrite IH. cbn. by rewrite orb_assoc.
Qed.

Lemma foldl_new_min_gap_minimum gs : forall m,
  is_minimum (foldl new_min_gap m gs) (m :: positive_gaps gs).
Proof.
  induction gs as [|g gs IH]; intros m; cbn [foldl].
  - split; [apply list_elem_of_here|]. repeat constructor. apply Qcle_refl.
  - destruct (IH (new_min_gap m g)) as [Hin Hlow].
    set (x := foldl new_min_gap (new_min_gap m g) gs) in *.
    apply Forall_cons in Hlow as [Hhd Hlow].
    apply elem_of_cons in Hin.
    unfold positive_gaps in *.
    destruct (decide (0 < g)) as [Hpos|Hnpos].
    + rewrite filter_cons_True by done.
      assert (new_min_gap m g = py_min m g) as E
        by (unfold new_min_gap; by rewrite decide_True).
      rewrite E in Hin, Hhd. split.
      * rewrite !elem_of_cons.
        destruct Hin as [Hin|Hin]; [|tauto].
        destruct (py_min_cases m g) as [E'|E']; rewrite E' in Hin; tauto.
      * repeat apply Forall_cons_2; [| |done].
        -- eapply Qcle_trans; [exact Hhd | apply py_min_le_l].
        -- eapply Qcle_trans; [exact Hhd | apply py_min_le_r].
    + rewrite filter_cons_False by done.
      assert (new_min_gap m g = m) as E
        by (unfold new_min_gap; by rewrite decide_False).
      rewrite E in Hin, Hhd. split.
      * by apply elem_of_cons.
      * by apply Forall_cons_2.
Qed.

Lemma foldl_new_max_gap_maximum gs : forall m,
  is_maximum (foldl new_max_gap m gs) (m :: gs).
Proof.
  induction gs as [|g gs IH]; intros m; cbn [foldl].
  - split; [apply list_elem_of_here|]. repeat constructor. apply Qcle_refl.
  - destruct (IH (new_max_gap m g)) as [Hin Hup].
    set (x := foldl new_max_gap (new_max_gap m g) gs) in *.
    apply Forall_cons in Hup as [Hhd Hup].
    apply elem_of_cons in Hin. unfold new_max_gap in Hin, Hhd. split.
    + rewrite !elem_of_cons.
      destruct Hin as [Hin|Hin]; [|tauto].
      destruct (py_max_cases m g) as [E'|E']; rewrite E' in Hin; tauto.
    + repeat apply Forall_cons_2; [| |done].
      * eapply Qcle_trans; [apply py_max_ge_l | exact Hhd].
      * eapply Qcle_trans; [apply py_max_ge_r | exact Hhd].
Qed.

(** ** Gap tracking *)

(** C1 as stated fails.  A first click that arrives with a gap of five
    seconds creates the row with [max_gap = 0] and [min_gap = 999999], so
    neither is the extremum of the gaps seen.  And after a first click with
    gap 0, a click with a gap of a million seconds leaves [min_gap] at
    999999, which is not the least positive gap seen. *)
Lemma gap_tracking_first_click_counterexample :
  let c := s1_click 1 (dec 1 2) (dec 5 1) false (dec 1 50) "Low" in
  let c1 := s1_click 1 (dec 1 2) 0 false (dec 1 50) "Low" in
  let c2 := s1_click 2 (dec 20000 1) (dec 1000000 1) false (dec 1 50) "Low" in
  (exists r, row_after sample_db [c] "s1" = Some r
     /\ max_gap r = 0
     /\ min_gap r = sentinel
     /\ ~ spec_max_gap [c_time_gap_seconds c] (max_gap r)
     /\ ~ spec_min_gap [c_time_gap_seconds c] (min_gap r))
  /\ (exists r, row_after sample_db [c1; c2] "s1" = Some r
       /\ min_gap r = sentinel
       /\ ~ spec_min_gap [c_time_gap_seconds c1; c_time_gap_seconds c2]
             (min_gap r)).
Proof.
  split.
  - eexists. split; [vm_compute; reflexivity|].
    cbn [max_gap min_gap]. repeat split.
    + intros [Hin _]. apply list_elem_of_singleton in Hin. cbn in Hin.
      by apply (f_equal this) in Hin.
    + unfold spec_min_gap, positive_gaps. rewrite filter_cons_True by done.
      intros [Hin _]. apply list_elem_of_singleton in Hin. cbn in Hin.
      by apply (f_equal this) in Hin.
  - eexists. split; [vm_compute; reflexivity|].
    cbn [min_gap]. split; [reflexivity|].
    unfold spec_min_gap, positive_gaps.
    rewrite filter_cons_False by done. rewrite filter_cons_True by done.
    intros [Hin _]. apply list_elem_of_singleton in Hin. cbn in Hin.
    by apply (f_equal this) in Hin.
Qed.

(** C1 (amended).  On a session without a row, after any sequence of calls
    that contains at least one click of the session, [min_gap] is the least
    of 999999 and the strictly positive gaps of the clicks after the
    creating one, and [max_gap] is the greatest of 0 and the gaps of the
    clicks after the creating one; the gap of the creating click is not
    stored. *)
Theorem gap_tracking_after_creation (d : db) (sid : string)
    (cs : list click) (c0 : click) (rest : list click) :
  session_summary d !! sid = None ->
  ads_known d cs ->
  for_session sid cs = c0 :: rest ->
  exists r, row_after d cs sid = Some r
    /\ is_minimum (min_gap r)
         (sentinel :: positive_gaps (c_time_gap_seconds <$> rest))
    /\ is_maximum (max_gap r) (0 :: (c_time_gap_seconds <$> rest)).
Proof.
  intros Hnone Hads Hfor.
  destruct (apply_clicks_fresh cs d sid c0 rest Hnone Hads Hfor)
    as (d' & a & Hrun & _ & Hrow).
  eexists. split.
  - unfold row_after. rewrite Hrun. exact Hrow.
  - rewrite min_gap_foldl, max_gap_foldl. split.
    + apply foldl_new_min_gap_minimum.
    + apply foldl_new_max_gap_maximum.
Qed.

Lemma gap_tracking_after_creation_witness :
  let cs := [ s1_click 1 (dec 1 2) 0 false (dec 1 50) "Low";
              s1_click 12 1 (dec 1 2) true (dec 9 10) "High" ] in
  exists r, row_after sample_db cs "s1" = Some r
    /\ is_minimum (min_gap r) [sentinel; dec 1 2]
    /\ is_maximum (max_gap r) [0; dec 1 2].
Proof.
  intros cs.
  apply (gap_tracking_after_creation sample_db "s1" cs
           (s1_click 1 (dec 1 2) 0 false (dec 1 50) "Low")
           [s1_click 12 1 (dec 1 2) true (dec 9 10) "High"]).
  - reflexivity.
  - unfold ads_known. repeat constructor; vm_compute; eauto.
  - reflexivity.
Defined.

(** ** The sticky fraud flag *)

Lemma row_after_flag (d : db) (sid : string) (cs : list click) :
  ads_known d cs ->
  is_Some (session_summary d !! sid) \/ for_session sid cs <> [] ->
  exists r, row_after d cs sid = Some r
    /\ ss_is_fraud r
       = flag_before d sid || existsb c_is_fraud (for_session sid cs).
Proof.
  intros Hads Hrow. unfold row_after, flag_before.
  destruct (session_summary d !! sid) as [r0|] eqn:Hr0.
  - destruct (apply_clicks_existing cs d sid r0 Hr0 Hads)
      as (d' & Hrun & _ & Hlook).
    rewrite Hrun. eexists. split; [exact Hlook|]. apply is_fraud_foldl.
  - destruct Hrow as [[? ?]|Hne]; [done|].
    destruct (for_session sid cs) as [|c0 rest] eqn:Hfor; [done|].
    destruct (apply_clicks_fresh cs d sid c0 rest Hr0 Hads Hfor)
      as (d' & a & Hrun & _ & Hlook).
    rewrite Hrun. eexists. split; [exact Hlook|].
    by rewrite is_fraud_foldl.
Qed.

(** C2.  After any sequence of calls, the [is_fraud] column of a session is
    the disjunction of the flag the session had before and the verdicts of
    all its clicks in the sequence, the creating one included; so a flag
    that is true stays true whatever the later verdicts are. *)
Theorem fraud_flag_is_sticky (d : db) (sid : string) (cs : list click) :
  ads_known d cs ->
  is_Some (session_summary d !! sid) \/ for_session sid cs <> [] ->
  exists r, row_after d cs sid = Some r
    /\ ss_is_fraud r
       = flag_before d sid || existsb c_is_fraud (for_session sid cs)
    /\ (flag_before d sid = true -> ss_is_fraud r = true).
Proof.
  intros Hads Hrow.
  destruct (row_after_flag d sid cs Hads Hrow) as (r & Hr & Hflag).
  exists r. repeat split; [done..|].
  intros Hb. by rewrite Hflag, Hb.
Qed.

(** The three clicks of the scenario: genuine, fraudulent, genuine. *)
Lemma fraud_flag_is_sticky_witness :
  let cs := [ s1_click 1 (dec 1 2) 0 false (dec 1 50) "Low";
              s1_click 12 1 (dec 1 2) true (dec 9 10) "High";
              s1_click 13 2 (dec 30 1) false (dec 1 50) "Low" ] in
  exists r, row_after sample_db cs "s1" = Some r
    /\ ss_is_fraud r = true
    /\ (false = true -> ss_is_fraud r = true).
Proof.
  intros cs. apply (fraud_flag_is_sticky sample_db "s1" cs).
  - unfold ads_known. repeat constructor; vm_compute; eauto.
  - right. discriminate.
Defined.

(** ** The latest score *)

(** C7.  A call on a session that has a row stores the probability, the
    tier and the model name it was given, whatever the flag of the row and
    the verdict of the call are. *)
Theorem latest_score_is_stored (d : db) (clk : clock) (sid : string)
    (ad adv n : Z) (dur gap : Qc) (v : bool) (p : Qc)
    (risk name : string) (existing : summary_row) :
  session_summary d !! sid = Some existing ->
  is_Some (ads d !! ad) ->
  exists d' r,
    update_session_summary d clk sid ad adv n dur gap v p risk name = Some d'
    /\ session_summary d' !! sid = Some r
    /\ ss_fraud_probability r = p
    /\ ss_risk_level r = risk
    /\ ss_model_used r = name.
Proof.
  intros Hex [a Ha]. unfold update_session_summary. rewrite Ha, Hex.
  eexists _, _. split; [reflexivity|]. split.
  - cbn. apply lookup_insert_eq.
  - cbn. by destruct (ss_is_fraud existing || v).
Qed.

(** The third click of the scenario: the flag is already true and the new
    score is low. *)
Lemma latest_score_is_stored_witness :
  exists d1 r1,
    apply_clicks sample_db
      [ s1_click 1 (dec 1 2) 0 false (dec 1 50) "Low";
        s1_click 12 1 (dec 1 2) true (dec 9 10) "High" ] = Some d1
    /\ session_summary d1 !! "s1" = Some r1
    /\ ss_is_fraud r1 = true
    /\ exists d' r,
         apply_click d1 (s1_click 13 2 (dec 30 1) false (dec 1 50) "Low")
           = Some d'
         /\ session_summary d' !! "s1" = Some r
         /\ ss_fraud_probability r = dec 1 50
         /\ ss_risk_level r = "Low"
         /\ ss_model_used r = "ANN Click Fraud Detection Model".
Proof.
  eexists _, _. split; [vm_compute; reflexivity|].
  split; [vm_compute; reflexivity|]. split; [reflexivity|].
  eapply latest_score_is_stored.
  - vm_compute; reflexivity.
  - vm_compute; eauto.
Defined.

(** ** Replaying a click *)

(** C8 as stated fails.  A first click with a gap of half a second, applied
    and applied again: the first call creates the row with
    [min_gap = 999999] and [max_gap = 0], the second one, on the row that
    now exists, folds the gap in. *)
Lemma replay_of_creating_click_counterexample :
  let c := s1_click 1 (dec 1 2) (dec 1 2) false (dec 1 50) "Low" in
  exists r1 r2,
    row_after sample_db [c] "s1" = Some r1
    /\ row_after sample_db [c; c] "s1" = Some r2
    /\ min_gap r1 = sentinel /\ min_gap r2 = dec 1 2
    /\ max_gap r1 = 0 /\ max_gap r2 = dec 1 2
    /\ ~ same_summary r1 r2.
Proof.
  eexists _, _. split; [vm_compute; reflexivity|].
  split; [vm_compute; reflexivity|]. cbn [min_gap max_gap].
  repeat split. intros (Hmin & _). cbn in Hmin.
  by apply (f_equal this) in Hmin.
Qed.

Lemma fold_click_twice (r : summary_row) (c : click) (clk : clock) :
  same_summary (fold_click r c) (fold_click (fold_click r c) (at_clock c clk)).
Proof.
  unfold same_summary, fold_click, updated_row; cbn.
  rewrite new_min_gap_idem, new_max_gap_idem.
  repeat split; by destruct (ss_is_fraud r), (c_is_fraud c).
Qed.

Lemma fold_first_click (title : string) (c : click) (clk : clock) :
  ~ 0 < c_time_gap_seconds c ->
  same_summary (first_click title c)
    (fold_click (first_click title c) (at_clock c clk)).
Proof.
  intros Hgap. unfold same_summary, fold_click, first_click; cbn.
  unfold new_min_gap, new_max_gap. rewrite decide_False by done.
  rewrite py_max_absorb by by apply Qcnot_lt_le.
  repeat split; by destruct (c_is_fraud c).
Qed.

(** C8 (amended).  When a call is repeated with the same click arguments,
    the second call leaves [min_gap], [max_gap], [is_fraud],
    [fraud_probability], [risk_level], [clicks_per_session],
    [session_duration_minutes] and [model_used] as the first one left them,
    provided the row of the session existed before the first call or the
    gap of the click is not strictly positive. *)
Theorem replay_leaves_summary (d d1 : db) (c : click) (clk : clock) :
  apply_click d c = Some d1 ->
  is_Some (session_summary d !! c_session_id c)
    \/ ~ 0 < c_time_gap_seconds c ->
  exists d2 r1 r2,
    apply_click d1 (at_clock c clk) = Some d2
    /\ session_summary d1 !! c_session_id c = Some r1
    /\ session_summary d2 !! c_session_id c = Some r2
    /\ same_summary r1 r2.
Proof.
  intros Hd1 Hcase.
  destruct (apply_click_inv _ _ _ Hd1) as (a & Ha & _ & Hads1 & _ & Hss1).
  assert (is_Some (apply_click d1 (at_clock c clk))) as [d2 Hd2].
  { apply apply_click_is_Some. cbn. rewrite Hads1. eauto. }
  destruct (apply_click_inv _ _ _ Hd2) as (a' & _ & _ & _ & _ & Hss2).
  cbn [at_clock c_session_id] in Hss2.
  exists d2. eexists _, _. split; [done|].
  split; [rewrite Hss1; apply lookup_insert_eq|].
  split; [rewrite Hss2; apply lookup_insert_eq|].
  rewrite Hss1, lookup_insert_eq.
  destruct (session_summary d !! c_session_id c) as [r|].
  - apply fold_click_twice.
  - destruct Hcase as [[? ?]|Hgap]; [done|]. by apply fold_first_click.
Qed.

Lemma replay_leaves_summary_witness :
  let c1 := s1_click 1 (dec 1 2) 0 false (dec 1 50) "Low" in
  let c2 := s1_click 12 1 (dec 1 2) true (dec 9 10) "High" in
  let d := default sample_db (apply_click sample_db c1) in
  let d1 := default d (apply_click d c2) in
  exists d2 r1 r2,
    apply_click d1 (at_clock c2 sample_clock) = Some d2
    /\ session_summary d1 !! "s1" = Some r1
    /\ session_summary d2 !! "s1" = Some r2
    /\ same_summary r1 r2.
Proof.
  intros c1 c2 d d1.
  apply (replay_leaves_summary d d1 c2 sample_clock).
  - vm_compute; reflexivity.
  - left. vm_compute. eauto.
Defined.

(** ** The sentinel *)

Lemma update_session_summary_inv d clk sid ad adv n dur gap v p risk name d' :
  update_session_summary d clk sid ad adv n dur gap v p risk name = Some d' ->
  exists a, ads d !! ad = Some a
    /\ advertisers d' = advertisers d
    /\ ads d' = ads d
    /\ click_logs d' = click_logs d
    /\ session_summary d' =
         <[sid :=
             match session_summary d !! sid with
             | Some r => updated_row r clk n dur gap v p risk name
             | None => created_row (ad_title a) clk ad adv n dur v p risk name
             end]> (session_summary d).
Proof.
  unfold update_session_summary.
  destruct (ads d !! ad) as [a|]; [|done].
  intros H. exists a.
  destruct (session_summary d !! sid); injection H as <-; done.
Qed.

Lemma log_click_inv d clk ad adv sid n gap dur uac v p risk name cid d' :
  log_click d clk ad adv sid n gap dur uac v p risk name = Some (cid, d') ->
  exists row,
    cid = Z.of_nat (S (length (click_logs d)))
    /\ update_session_summary (with_click_logs d (click_logs d ++ [row]))
         clk sid ad adv n dur gap v p risk name = Some d'.
Proof.
  unfold log_click.
  destruct (negb _); [done|].
  match goal with
  | |- context [update_session_summary ?c _ _ _ _ _ _ _ _ _ _ _] =>
      destruct (update_session_summary c clk sid ad adv n dur gap v p
                  risk name) as [d2|] eqn:Hup; [|done]
  end.
  intros H. injection H as <- <-. eexists. split; [|exact Hup].
  unfold lastrowid. cbn. rewrite length_app. cbn. f_equal. lia.
Qed.

Lemma update_keeps_bound d clk sid ad adv n dur gap v p risk name d' :
  update_session_summary d clk sid ad adv n dur gap v p risk name = Some d' ->
  min_gap_bounded d -> min_gap_bounded d'.
Proof.
  intros Hup Hb sid' r' Hr'.
  destruct (update_session_summary_inv _ _ _ _ _ _ _ _ _ _ _ _ _ Hup)
    as (a & _ & _ & _ & _ & Hss).
  rewrite Hss in Hr'. destruct (decide (sid = sid')) as [<-|Hne].
  - rewrite lookup_insert_eq in Hr'. injection Hr' as <-.
    destruct (session_summary d !! sid) as [r|] eqn:Hr; cbn.
    + eapply Qcle_trans; [apply new_min_gap_le | by eapply Hb].
    + apply Qcle_refl.
  - rewrite lookup_insert_ne in Hr' by done. by eapply Hb.
Qed.

Lemma reachable_min_gap_bounded (d : db) : reachable d -> min_gap_bounded d.
Proof.
  induction 1 as [d He|d clk ad adv sid n gap dur uac v p risk name cid d' _ IH Hlog
                 |d d' _ IH Heq].
  - intros sid r Hr. by rewrite He in Hr.
  - destruct (log_click_inv _ _ _ _ _ _ _ _ _ _ _ _ _ _ _ Hlog)
      as (row & _ & Hup).
    eapply update_keeps_bound; [exact Hup|].
    intros sid' r' Hr'. by eapply IH.
  - intros sid r Hr. rewrite Heq in Hr. by eapply IH.
Qed.

(** C9 as stated fails: a gap of 999999 or more can be told from the state
    in which no positive gap has been seen.  On the row the first click of
    the scenario created, a second click with a gap of a million seconds
    and the same click with a gap of 0 both leave the sentinel in
    [min_gap], but the first one stores the million in [max_gap]. *)
Lemma large_gap_is_recorded_counterexample :
  let quiet := s1_click 2 (dec 1 2) 0 false (dec 1 50) "Low" in
  let late := s1_click 2 (dec 1 2) (dec 1000000 1) false (dec 1 50) "Low" in
  exists r0 r1,
    row_after after_first_click [quiet] "s1" = Some r0
    /\ row_after after_first_click [late] "s1" = Some r1
    /\ min_gap r0 = sentinel /\ min_gap r1 = sentinel
    /\ max_gap r0 = 0 /\ max_gap r1 = dec 1000000 1
    /\ ~ same_summary r0 r1.
Proof.
  eexists _, _. split; [vm_compute; reflexivity|].
  split; [vm_compute; reflexivity|]. cbn [min_gap max_gap].
  repeat split. intros (_ & Hmax & _). cbn in Hmax.
  by apply (f_equal this) in Hmax.
Qed.

(** C9 (amended).  The sentinel is the number 999999.  In every reachable
    database the [min_gap] of every row is at most 999999, and a call whose
    gap is 999999 or more leaves the [min_gap] of the row it updates as it
    was: a row that holds the sentinel still holds it.  The gap is recorded
    in [max_gap], which is 999999 or more afterwards. *)
Theorem sentinel_is_finite (d : db) (sid : string) (r : summary_row)
    (gap : Qc) :
  reachable d ->
  session_summary d !! sid = Some r ->
  dec 999999 1 <= gap ->
  sentinel = dec 999999 1
  /\ min_gap r <= dec 999999 1
  /\ forall clk ad adv n dur v p risk name,
       is_Some (ads d !! ad) ->
       exists d' r',
         update_session_summary d clk sid ad adv n dur gap v p risk name
           = Some d'
         /\ session_summary d' !! sid = Some r'
         /\ min_gap r' = min_gap r
         /\ (min_gap r = sentinel -> min_gap r' = sentinel)
         /\ max_gap r' = py_max (max_gap r) gap
         /\ dec 999999 1 <= max_gap r'.
Proof.
  intros Hreach Hr Hgap.
  assert (min_gap r <= sentinel) as Hb
    by (eapply reachable_min_gap_bounded; eauto).
  split; [done|]. split; [done|].
  intros clk ad adv n dur v p risk name [a Ha].
  unfold update_session_summary. rewrite Ha, Hr.
  eexists _, _. split; [reflexivity|]. split; [apply lookup_insert_eq|].
  assert (new_min_gap (min_gap r) gap = min_gap r) as E.
  { unfold new_min_gap. case_decide; [|done].
    apply py_min_absorb. by eapply Qcle_trans. }
  cbn. split; [done|]. split; [intros Hs; by rewrite E|].
  split; [done|]. unfold new_max_gap.
  eapply Qcle_trans; [exact Hgap|apply py_max_ge_r].
Qed.

Lemma after_first_click_reachable : reachable after_first_click.
Proof.
  eapply (reachable_log_click sample_db sample_clock 1 1 "s1" 1 0 (dec 1 2) 1
            false (dec 1 50) "Low" "ANN Click Fraud Detection Model" 1).
  - by apply reachable_init.
  - vm_compute; reflexivity.
Defined.

(** A row created by a first click, then a click that comes a million
    seconds later. *)
Lemma sentinel_is_finite_witness :
  exists r, session_summary after_first_click !! "s1" = Some r
    /\ min_gap r = sentinel
    /\ min_gap r <= dec 999999 1
    /\ forall clk ad adv n dur v p risk name,
         is_Some (ads after_first_click !! ad) ->
         exists d' r',
           update_session_summary after_first_click clk "s1" ad adv n dur
             (dec 1000000 1) v p risk name = Some d'
           /\ session_summary d' !! "s1" = Some r'
           /\ min_gap r' = min_gap r
           /\ (min_gap r = sentinel -> min_gap r' = sentinel)
           /\ max_gap r' = py_max (max_gap r) (dec 1000000 1)
           /\ dec 999999 1 <= max_gap r'.
Proof.
  eexists. split; [vm_compute; reflexivity|]. split; [reflexivity|].
  eapply (sentinel_is_finite after_first_click "s1" _ (dec 1000000 1)).
  - exact after_first_click_reachable.
  - vm_compute; reflexivity.
  - done.
Defined.

(** ** The pipeline *)

Lemma fits_int64_true (z : Z) :
  fits_int64 z = true <-> (- 2 ^ 63 <= z < 2 ^ 63)%Z.
Proof. unfold fits_int64. apply bool_decide_eq_true. Qed.

(** What [get_ad_with_advertiser] answers for an [ad_id] it can bind. *)
Lemma get_ad_with_advertiser_bound d ad :
  fits_int64 ad = true ->
  get_ad_with_advertiser d ad
  = Some (match ads d !! ad with
          | None => None
          | Some a =>
            match advertisers d !! ad_advertiser_id a with
            | None => None
            | Some adv => Some (a, adv_name adv)
            end
          end).
Proof.
  intros Hfit. unfold get_ad_with_advertiser. rewrite Hfit. cbn.
  destruct (ads d !! ad) as [a|]; [|done].
  by destruct (advertisers d !! ad_advertiser_id a).
Qed.

Lemma get_ad_with_advertiser_Some d ad info :
  get_ad_with_advertiser d ad = Some (Some info) ->
  fits_int64 ad = true
  /\ ads d !! ad = Some (fst info)
  /\ is_Some (advertisers d !! ad_advertiser_id (fst info)).
Proof.
  unfold get_ad_with_advertiser.
  destruct (fits_int64 ad); [|done]. cbn.
  destruct (ads d !! ad) as [a|]; [|done].
  destruct (advertisers d !! ad_advertiser_id a) eqn:Hadv; [|done].
  intros [= <-]. cbn. rewrite Hadv. eauto.
Qed.

Lemma log_click_is_Some d clk ad adv sid n gap dur uac v p risk name :
  fits_int64 ad = true -> fits_int64 adv = true ->
  fits_int64 n = true -> fits_int64 uac = true ->
  is_Some (ads d !! ad) ->
  exists d',
    log_click d clk ad adv sid n gap dur uac v p risk name
    = Some (Z.of_nat (S (length (click_logs d))), d')
    /\ length (click_logs d') = S (length (click_logs d)).
Proof.
  intros Had Hadv Hn Huac [a Ha]. unfold log_click, update_session_summary.
  rewrite Had, Hadv, Hn, Huac. cbn. rewrite Ha.
  unfold lastrowid. cbn. rewrite length_app. cbn.
  replace (length (click_logs d) + 1)%nat with (S (length (click_logs d)))
    by lia.
  destruct (session_summary d !! sid); eexists; split; try reflexivity;
    cbn; rewrite length_app; cbn; lia.
Qed.

(** What [predict] returns once the model is loaded, the ad is found and
    the integers of the request can be bound. *)
Lemma predict_returns g d clk click clf transform name info :
  classifier g = Some clf ->
  scaler g = Some transform ->
  model_name g = Some name ->
  get_ad_with_advertiser d (ad_id click) = Some (Some info) ->
  advertiser_ids_fit d ->
  fits_int64 (clicks_per_session click) = true ->
  fits_int64 (user_agent_category click) = true ->
  exists d',
    predict g d clk click
    = (Returned
         {| pr_is_fraud :=
              verdict (py_max (clf (transform (build click))) (dec 1 1000));
            pr_fraud_probability :=
              py_max (clf (transform (build click))) (dec 1 1000);
            pr_risk_level :=
              get_risk_level
                (py_max (clf (transform (build click))) (dec 1 1000));
            pr_model_used := name |}, d')
    /\ length (click_logs d') = S (length (click_logs d)).
Proof.
  intros Hclf Hsc Hname Hinfo Hids Hn Huac. unfold predict.
  rewrite Hclf, Hinfo, Hsc, Hname.
  destruct (get_ad_with_advertiser_Some _ _ _ Hinfo)
    as (Hfit & Hads & [r Hr]).
  assert (fits_int64 (ad_advertiser_id info.1) = true) as Hadv
    by (by eapply (Hids _ r)).
  match goal with
  | |- context [log_click d clk ?a ?b ?c ?e ?f ?h ?i ?j ?k ?l ?m] =>
      destruct (log_click_is_Some d clk a b c e f h i j k l m)
        as (d' & Hlog & Hlen); [done..|by eauto|]
  end.
  rewrite Hlog. by exists d'.
Qed.

(** C10.  [update_session_summary] subscripts the result of the title
    lookup without a test: for an [ad_id] without a row in [ads] it raises,
    and writes nothing.  In [predict] the call is only reached after
    [get_ad_with_advertiser] has found the ad, and then
    [update_session_summary] does not raise, neither on the database nor on
    the state [log_click] calls it on, with the click logged; nor does
    [log_click], for integers that can be bound. *)
Theorem title_lookup_is_guarded (d : db) (clk : clock) (sid : string)
    (ad adv n uac : Z) (dur gap : Qc) (v : bool) (p : Qc)
    (risk name : string) :
  (ads d !! ad = None ->
     update_session_summary d clk sid ad adv n dur gap v p risk name = None)
  /\ ((exists info, get_ad_with_advertiser d ad = Some (Some info)) ->
        is_Some
          (update_session_summary d clk sid ad adv n dur gap v p risk name)
        /\ (forall logged,
              is_Some
                (update_session_summary (with_click_logs d logged) clk sid
                   ad adv n dur gap v p risk name))
        /\ (fits_int64 adv = true -> fits_int64 n = true ->
            fits_int64 uac = true ->
            is_Some
              (log_click d clk ad adv sid n gap dur uac v p risk name))).
Proof.
  split.
  - intros Hnone. by apply update_raises_iff.
  - intros [info Hinfo].
    apply get_ad_with_advertiser_Some in Hinfo as (Hfit & Hads & _).
    split; [|split].
    + destruct (update_session_summary d clk sid ad adv n dur gap v p
                  risk name) eqn:E; [done|].
      apply update_raises_iff in E. by rewrite Hads in E.
    + intros logged.
      destruct (update_session_summary (with_click_logs d logged) clk sid
                  ad adv n dur gap v p risk name) eqn:E; [done|].
      apply update_raises_iff in E. cbn in E. by rewrite Hads in E.
    + intros Hadv Hn Huac.
      destruct (log_click_is_Some d clk ad adv sid n gap dur uac v p
                  risk name) as (d' & -> & _); eauto.
Qed.

(** Ad 7 is not in the catalogue, ad 1 is. *)
Lemma title_lookup_is_guarded_witness :
  update_session_summary sample_db sample_clock "s1" 7 1 1 (dec 1 2) 0
    false (dec 1 50) "Low" "ANN Click Fraud Detection Model" = None
  /\ (is_Some
        (update_session_summary sample_db sample_clock "s1" 1 1 1 (dec 1 2) 0
           false (dec 1 50) "Low" "ANN Click Fraud Detection Model")
      /\ (forall logged,
            is_Some
              (update_session_summary (with_click_logs sample_db logged)
                 sample_clock "s1" 1 1 1 (dec 1 2) 0 false (dec 1 50) "Low"
                 "ANN Click Fraud Detection Model"))
      /\ (fits_int64 1 = true -> fits_int64 1 = true ->
          fits_int64 1 = true ->
          is_Some
            (log_click sample_db sample_clock 1 1 "s1" 1 0 (dec 1 2) 1
               false (dec 1 50) "Low" "ANN Click Fraud Detection Model"))).
Proof.
  split.
  - apply (title_lookup_is_guarded sample_db sample_clock "s1" 7 1 1 1
             (dec 1 2) 0 false (dec 1 50) "Low"
             "ANN Click Fraud Detection Model").
    reflexivity.
  - apply (title_lookup_is_guarded sample_db sample_clock "s1" 1 1 1 1
             (dec 1 2) 0 false (dec 1 50) "Low"
             "ANN Click Fraud Detection Model").
    eexists. vm_compute. reflexivity.
Defined.

(** C6 as stated fails.  The request names ad 2^63, which does not exist;
    the model is loaded.  Binding the id raises [OverflowError] in
    [get_ad_with_advertiser], so the request ends in a server error and not
    in the 404 of a missing ad. *)
Lemma ad_id_out_of_range_counterexample :
  let click := first_request (2 ^ 63) in
  ads sample_db !! ad_id click = None
  /\ predict (loaded (dec 9 10)) sample_db sample_clock click
     = (Uncaught, sample_db)
  /\ fst (predict (loaded (dec 9 10)) sample_db sample_clock click)
     <> HTTPException 404 "Ad not found".
Proof. split; [reflexivity|]. split; [vm_compute; reflexivity|done]. Qed.

(** C6 (amended).  When the classifier is not loaded, [predict] raises the
    503 exception, whether or not the ad exists and whatever the features
    would be.  When it is loaded, and the ad id of the request is one
    SQLite can bind, an integer of signed 64 bits, [predict] raises the 404
    exception when the ad has no row or the advertiser it names has none,
    whatever the classifier would answer; for an ad id outside that range
    the lookup raises [OverflowError] and the request ends in a server
    error.  In all these cases, and whenever [predict] does not return a
    response, the database is the one it was called on: no row of
    [click_logs] is added and no row of [session_summary] is written. *)
Theorem score_errors_leave_the_database (g : globals) (d : db)
    (clk : clock) (click : ClickData) :
  (classifier g = None ->
     predict g d clk click = (HTTPException 503 "Model not loaded", d))
  /\ (is_Some (classifier g) ->
      fits_int64 (ad_id click) = true ->
      ads d !! ad_id click = None
        \/ (exists a, ads d !! ad_id click = Some a
                      /\ advertisers d !! ad_advertiser_id a = None) ->
      predict g d clk click = (HTTPException 404 "Ad not found", d))
  /\ (is_Some (classifier g) ->
      fits_int64 (ad_id click) = false ->
      predict g d clk click = (Uncaught, d))
  /\ ((exists r, fst (predict g d clk click) = Returned r)
      \/ snd (predict g d clk click) = d).
Proof.
  unfold predict. split; [|split; [|split]].
  - by intros ->.
  - intros [clf ->] Hfit Hmissing.
    rewrite (get_ad_with_advertiser_bound _ _ Hfit).
    destruct Hmissing as [-> | (a & -> & ->)]; done.
  - intros [clf ->] Hfit. unfold get_ad_with_advertiser. by rewrite Hfit.
  - destruct (classifier g); [|by right].
    destruct (get_ad_with_advertiser d (ad_id click)) as [[info|]|];
      [|by right..].
    destruct (scaler g); [|by right].
    destruct (model_name g); [|by right].
    match goal with
    | |- context [log_click ?a ?b ?c ?e ?f ?h ?i ?j ?k ?l ?m ?o ?q] =>
        destruct (log_click a b c e f h i j k l m o q) as [[cid d']|]
    end; [left; eauto | by right].
Qed.

Lemma score_errors_leave_the_database_witness :
  predict not_loaded sample_db sample_clock (first_request 7)
    = (HTTPException 503 "Model not loaded", sample_db)
  /\ predict (loaded (dec 9 10)) sample_db sample_clock (first_request 7)
     = (HTTPException 404 "Ad not found", sample_db)
  /\ predict (loaded (dec 9 10)) sample_db sample_clock
       (first_request (2 ^ 63))
     = (Uncaught, sample_db).
Proof.
  split; [|split].
  - apply (score_errors_leave_the_database not_loaded sample_db sample_clock
             (first_request 7)).
    reflexivity.
  - apply (score_errors_leave_the_database (loaded (dec 9 10)) sample_db
             sample_clock (first_request 7)).
    + vm_compute. eauto.
    + reflexivity.
    + left. reflexivity.
  - apply (score_errors_leave_the_database (loaded (dec 9 10)) sample_db
             sample_clock (first_request (2 ^ 63))).
    + vm_compute. eauto.
    + reflexivity.
Defined.

(** ** The risk policy *)

Lemma verdict_true_iff (p : Qc) : verdict p = true <-> dec 1 2 <= p.
Proof. unfold verdict. apply bool_decide_eq_true. Qed.

(** C3.  The verdict is true exactly when the probability is at least 0.5;
    the tier is Low below 0.1, Medium from 0.1 up to but not including 0.8,
    and High from 0.8 on.  The two thresholds are independent: 0.5 gives a
    true verdict with the Medium tier, 0.05 a false verdict with the Low
    tier.  [predict] answers with the verdict and the tier of the
    probability it answers with. *)
Theorem risk_policy (p : Qc) :
  (verdict p = true <-> dec 1 2 <= p)
  /\ (p < dec 1 10 -> get_risk_level p = "Low")
  /\ (dec 1 10 <= p -> p < dec 8 10 -> get_risk_level p = "Medium")
  /\ (dec 8 10 <= p -> get_risk_level p = "High")
  /\ (verdict (dec 1 2), get_risk_level (dec 1 2)) = (true, "Medium")
  /\ (verdict (dec 5 100), get_risk_level (dec 5 100)) = (false, "Low")
  /\ forall g d clk click r d',
       predict g d clk click = (Returned r, d') ->
       pr_is_fraud r = verdict (pr_fraud_probability r)
       /\ pr_risk_level r = get_risk_level (pr_fraud_probability r).
Proof.
  split; [apply verdict_true_iff|]. unfold get_risk_level.
  split; [intros H; by rewrite decide_True|].
  split.
  { intros H1 H2. rewrite decide_False by by apply Qcle_not_lt.
    by rewrite decide_True. }
  split.
  { intros H. rewrite decide_False.
    - rewrite decide_False by by apply Qcle_not_lt. done.
    - apply Qcle_not_lt. by eapply Qcle_trans; [|exact H]. }
  split; [reflexivity|]. split; [reflexivity|].
  intros g d clk click r d'. unfold predict.
  destruct (classifier g); [|done].
  destruct (get_ad_with_advertiser d (ad_id click)) as [[info|]|];
    [|done..].
  destruct (scaler g); [|done].
  destruct (model_name g); [|done].
  match goal with
  | |- context [log_click ?a ?b ?c ?e ?f ?h ?i ?j ?k ?l ?m ?o ?q] =>
      destruct (log_click a b c e f h i j k l m o q) as [[cid d2]|]
  end; [|done].
  by intros [= <- _].
Qed.

Lemma risk_policy_witness :
  get_risk_level (dec 5 100) = "Low"
  /\ get_risk_level (dec 1 2) = "Medium"
  /\ get_risk_level (dec 9 10) = "High"
  /\ verdict (dec 9 10) = true.
Proof.
  split; [|split; [|split]].
  - by apply (risk_policy (dec 5 100)).
  - by apply (risk_policy (dec 1 2)).
  - by apply (risk_policy (dec 9 10)).
  - by apply (risk_policy (dec 9 10)).
Defined.

(** ** The probability floor *)

Lemma py_max_is_max (a b : Qc) : py_max a b = Qc_max a b.
Proof.
  unfold py_max, Qc_max. destruct (decide (a < b)) as [Hlt|Hnlt].
  - rewrite decide_True; [done | by apply Qclt_le_weak].
  - apply Qcnot_lt_le in Hnlt. case_decide as Hle; [|done].
    by apply Qcle_antisym.
Qed.

Lemma py_min_is_min (a b : Qc) : py_min a b = Qc_min a b.
Proof.
  unfold py_min, Qc_min. destruct (decide (b < a)) as [Hlt|Hnlt].
  - rewrite decide_False; [done | by apply Qclt_not_le].
  - apply Qcnot_lt_le in Hnlt. by rewrite decide_True.
Qed.

(** C4.  When the model is loaded, the ad is found and the integers of
    the request are ones SQLite can bind, and the classifier answers [r]
    between 0 and 1, [predict] returns the probability [max(r, 0.001)]: it
    is above 0, at most 1, and never 0. *)
Theorem probability_is_floored (g : globals) (d : db) (clk : clock)
    (click : ClickData) (clf : list Qc -> Qc)
    (transform : feature_row -> list Qc) (name : string) :
  classifier g = Some clf ->
  scaler g = Some transform ->
  model_name g = Some name ->
  (exists info, get_ad_with_advertiser d (ad_id click) = Some (Some info)) ->
  advertiser_ids_fit d ->
  fits_int64 (clicks_per_session click) = true ->
  fits_int64 (user_agent_category click) = true ->
  0 <= clf (transform (build click)) ->
  clf (transform (build click)) <= 1 ->
  exists r d',
    predict g d clk click = (Returned r, d')
    /\ pr_fraud_probability r
       = Qc_max (clf (transform (build click))) (dec 1 1000)
    /\ 0 < pr_fraud_probability r
    /\ pr_fraud_probability r <= 1
    /\ pr_fraud_probability r <> 0.
Proof.
  intros Hclf Hsc Hname [info Hinfo] Hids Hn Huac H0 H1.
  destruct (predict_returns g d clk click clf transform name info
              Hclf Hsc Hname Hinfo Hids Hn Huac) as (d' & Hp & _).
  eexists _, d'. split; [exact Hp|]. cbn [pr_fraud_probability].
  split; [apply py_max_is_max|].
  assert (0 < py_max (clf (transform (build click))) (dec 1 1000)) as Hpos.
  { eapply Qclt_le_trans; [|apply py_max_ge_r]. done. }
  split; [done|]. split.
  - destruct (py_max_cases (clf (transform (build click))) (dec 1 1000))
      as [-> | ->]; done.
  - intros E. rewrite E in Hpos. by apply Qclt_not_eq in Hpos.
Qed.

Lemma sample_db_ids_fit : advertiser_ids_fit sample_db.
Proof. apply (bool_decide_unpack _). by vm_compute. Qed.

(** A model that answers exactly 0. *)
Lemma probability_is_floored_witness :
  exists r d',
    predict (loaded 0) sample_db sample_clock (first_request 1)
      = (Returned r, d')
    /\ pr_fraud_probability r = dec 1 1000
    /\ 0 < pr_fraud_probability r
    /\ pr_fraud_probability r <= 1
    /\ pr_fraud_probability r <> 0.
Proof.
  apply (probability_is_floored (loaded 0) sample_db sample_clock
           (first_request 1) (fun _ => 0)
           (fun x => [click_duration x; click_frequency x;
                      bot_likelihood_score x])
           "ANN Click Fraud Detection Model").
  - reflexivity.
  - reflexivity.
  - reflexivity.
  - eexists. vm_compute. reflexivity.
  - exact sample_db_ids_fit.
  - reflexivity.
  - reflexivity.
  - done.
  - done.
Defined.

(** ** Feature derivation *)

(** C5.  [build] computes the click frequency and the bot score of the
    specification, for every click; being a function, it gives the same
    row for the same click. *)
Theorem derived_features (click : ClickData) :
  click_frequency (build click) = spec_click_frequency click
  /\ bot_likelihood_score (build click) = spec_bot_score click
  /\ bot_likelihood_score (build click) <= 1
  /\ dec 1 10 <= Qc_max (session_duration_minutes click) (dec 1 10).
Proof.
  assert (click_frequency (build click) = spec_click_frequency click) as Hf.
  { unfold build, spec_click_frequency. cbn. by rewrite py_max_is_max. }
  split; [exact Hf|].
  assert (bot_likelihood_score (build click) = spec_bot_score click) as Hb.
  { unfold spec_bot_score. rewrite <- Hf. unfold build. cbn.
    rewrite py_min_is_min. unfold signal. f_equal.
    repeat case_decide; repeat case_bool_decide; try done;
      apply Qc_is_canon; reflexivity. }
  split; [exact Hb|]. split.
  - rewrite Hb. unfold spec_bot_score. rewrite <- py_min_is_min.
    apply py_min_le_r.
  - rewrite <- py_max_is_max. apply py_max_ge_r.
Qed.

(** The second click of the scenario: twelve clicks in one minute, half a
    second after the previous one.  All three signals fire. *)
Example build_second_click :
  let row := build {| session_id := "s1";
                      clicks_per_session := 12;
                      time_gap_seconds := dec 1 2;
                      session_duration_minutes := 1;
                      ad_id := 1;
                      user_agent_category := 1 |} in
  this (click_frequency row) = (12 # 1)%Q
  /\ this (bot_likelihood_score row) = (1 # 1)%Q
  /\ VPN_usage row = 1%Z
  /\ proxy_usage row = 1%Z
  /\ device_ip_reputation row = "Bad"
  /\ device_type row = "Desktop"
  /\ scroll_depth row = 100%Z
  /\ mouse_movement row = 400%Z.
Proof. vm_compute. repeat split. Qed.

(** * Further properties of the aggregation *)

(** What a [log_click] that returned has done. *)
Lemma log_click_Some (d : db) (clk : clock)
    (ad adv : Z) (sid : string) (n : Z) (gap dur : Qc) (uac : Z)
    (v : bool) (p : Qc) (risk name : string) (cid : Z) (d' : db) :
  log_click d clk ad adv sid n gap dur uac v p risk name = Some (cid, d') ->
  (fits_int64 ad = true /\ fits_int64 adv = true
   /\ fits_int64 n = true /\ fits_int64 uac = true)
  /\ exists a, ads d !! ad = Some a
     /\ click_logs d' = click_logs d ++
          [ {| cl_ad_id := ad; cl_advertiser_id := adv;
               cl_session_id := sid; cl_clicks_per_session := n;
               cl_time_gap_seconds := gap;
               cl_session_duration_minutes := dur;
               cl_user_agent_category := uac; cl_is_fraud := v;
               cl_fraud_probability := p; cl_risk_level := risk;
               cl_model_used := name; cl_clicked_at := now_ist clk |} ]
     /\ cid = Z.of_nat (length (click_logs d'))
     /\ session_summary d' =
          <[sid :=
              match session_summary d !! sid with
              | Some r => updated_row r clk n dur gap v p risk name
              | None =>
                  created_row (ad_title a) clk ad adv n dur v p risk name
              end]> (session_summary d)
     /\ ads d' = ads d
     /\ advertisers d' = advertisers d.
Proof.
  unfold log_click.
  destruct (fits_int64 ad); [|done]. destruct (fits_int64 adv); [|done].
  destruct (fits_int64 n); [|done]. destruct (fits_int64 uac); [|done].
  cbn [andb negb].
  match goal with
  | |- context [update_session_summary ?c _ _ _ _ _ _ _ _ _ _ _] =>
      destruct (update_session_summary c clk sid ad adv n dur gap v p
                  risk name) as [d2|] eqn:Hup; [|done]
  end.
  intros [= <- <-]. split; [done|].
  destruct (update_session_summary_inv _ _ _ _ _ _ _ _ _ _ _ _ _ Hup)
    as (a & Ha & Hadv & Hads & Hlogs & Hss).
  exists a. cbn in Ha, Hadv, Hads, Hlogs, Hss.
  split; [done|]. split; [done|]. split; [by rewrite Hlogs|]. done.
Qed.


(** X2.  A call writes the row of its own session and no other: the rows of
    the other sessions are the ones that were there, no row is deleted, and
    the sessions that have a row are those that had one, and the session of
    the call. *)
Theorem update_writes_one_row (d d' : db) (clk : clock) (sid : string)
    (ad adv n : Z) (dur gap : Qc) (v : bool) (p : Qc)
    (risk name : string) :
  update_session_summary d clk sid ad adv n dur gap v p risk name = Some d' ->
  (forall sid', sid' <> sid ->
     session_summary d' !! sid' = session_summary d !! sid')
  /\ dom (session_summary d') = {[ sid ]} ∪ dom (session_summary d)
  /\ click_logs d' = click_logs d
  /\ ads d' = ads d
  /\ advertisers d' = advertisers d.
Proof.
  intros Hup.
  destruct (update_session_summary_inv _ _ _ _ _ _ _ _ _ _ _ _ _ Hup)
    as (a & _ & Hadv & Hads & Hlogs & Hss).
  rewrite Hss. repeat split; try done.
  - intros sid' Hne. by rewrite lookup_insert_ne.
  - by rewrite dom_insert_L.
Qed.

Lemma update_writes_one_row_witness :
  let d' := default sample_db
              (update_session_summary after_first_click sample_clock "s2" 1 1
                 1 (dec 1 2) 0 false (dec 1 50) "Low" "m") in
  (forall sid', sid' <> "s2" ->
     session_summary d' !! sid' = session_summary after_first_click !! sid')
  /\ dom (session_summary d') = {[ "s2" ]} ∪ dom (session_summary after_first_click)
  /\ click_logs d' = click_logs after_first_click
  /\ ads d' = ads after_first_click
  /\ advertisers d' = advertisers after_first_click.
Proof.
  intros d'.
  apply (update_writes_one_row after_first_click d' sample_clock "s2" 1 1 1
           (dec 1 2) 0 false (dec 1 50) "Low" "m").
  vm_compute; reflexivity.
Defined.




(** ** An invariant of the two gaps *)

Lemma created_row_gaps_in_range title clk ad adv n dur v p risk name :
  gaps_in_range (created_row title clk ad adv n dur v p risk name).
Proof. unfold gaps_in_range. cbn. split; [done|]. split; [done|]. by left. Qed.

Lemma updated_row_gaps_in_range r clk n dur gap v p risk name :
  gaps_in_range r ->
  gaps_in_range (updated_row r clk n dur gap v p risk name).
Proof.
  intros (Hmin & Hmax & Hrel). unfold gaps_in_range. cbn.
  unfold new_min_gap, new_max_gap. split; [|split].
  - case_decide; [|done].
    destruct (py_min_cases (min_gap r) gap) as [-> | ->]; done.
  - eapply Qcle_trans; [exact Hmax | apply py_max_ge_l].
  - case_decide as Hpos.
    + destruct (decide (gap < min_gap r)) as [Hlt|Hnlt].
      * right. unfold py_min. rewrite decide_True by done.
        apply py_max_ge_r.
      * unfold py_min. rewrite decide_False by done.
        destruct Hrel as [Hs|Hle]; [by left|right].
        eapply Qcle_trans; [exact Hle | apply py_max_ge_l].
    + destruct Hrel as [Hs|Hle]; [by left|right].
      eapply Qcle_trans; [exact Hle | apply py_max_ge_l].
Qed.

Lemma update_keeps_gaps_in_range d clk sid ad adv n dur gap v p risk name d' :
  update_session_summary d clk sid ad adv n dur gap v p risk name = Some d' ->
  map_Forall (fun _ r => gaps_in_range r) (session_summary d) ->
  map_Forall (fun _ r => gaps_in_range r) (session_summary d').
Proof.
  intros Hup Hall.
  destruct (update_session_summary_inv _ _ _ _ _ _ _ _ _ _ _ _ _ Hup)
    as (a & _ & _ & _ & _ & Hss).
  rewrite Hss. apply map_Forall_insert_2; [|done].
  destruct (session_summary d !! sid) as [r|] eqn:Hr.
  - apply updated_row_gaps_in_range. by eapply Hall.
  - apply created_row_gaps_in_range.
Qed.

(** X4.  In every reachable database, every session summary has a strictly
    positive [min_gap], a [max_gap] that is not negative, and a [min_gap]
    that is either the sentinel 999999 or at most [max_gap]. *)
Theorem stored_gaps_are_in_range (d : db) (sid : string) (r : summary_row) :
  reachable d ->
  session_summary d !! sid = Some r ->
  0 < min_gap r
  /\ 0 <= max_gap r
  /\ (min_gap r = dec 999999 1 \/ min_gap r <= max_gap r).
Proof.
  intros Hreach. revert sid r.
  change (map_Forall (fun _ r => gaps_in_range r) (session_summary d)).
  induction Hreach as [d He|d clk ad adv sid n gap dur uac v p risk name cid d' _ IH Hlog
                      |d d' _ IH Heq].
  - rewrite He. apply map_Forall_empty.
  - destruct (log_click_inv _ _ _ _ _ _ _ _ _ _ _ _ _ _ _ Hlog)
      as (row & _ & Hup).
    by eapply update_keeps_gaps_in_range.
  - by rewrite Heq.
Qed.

Lemma stored_gaps_are_in_range_witness :
  exists r, session_summary after_first_click !! "s1" = Some r
    /\ 0 < min_gap r
    /\ 0 <= max_gap r
    /\ (min_gap r = dec 999999 1 \/ min_gap r <= max_gap r).
Proof.
  eexists. split; [vm_compute; reflexivity|].
  apply (stored_gaps_are_in_range after_first_click "s1").
  - exact after_first_click_reachable.
  - vm_compute; reflexivity.
Defined.

(** ** The order of the clicks *)

Lemma is_minimum_unique (x y : Qc) (l : list Qc) :
  is_minimum x l -> is_minimum y l -> x = y.
Proof.
  intros [Hx Hlx] [Hy Hly]. rewrite Forall_forall in Hlx, Hly.
  apply Qcle_antisym; auto.
Qed.

Lemma is_maximum_unique (x y : Qc) (l : list Qc) :
  is_maximum x l -> is_maximum y l -> x = y.
Proof.
  intros [Hx Hlx] [Hy Hly]. rewrite Forall_forall in Hlx, Hly.
  apply Qcle_antisym; auto.
Qed.

Lemma is_minimum_perm (x : Qc) (l l' : list Qc) :
  l ≡ₚ l' -> is_minimum x l -> is_minimum x l'.
Proof. intros Hp [Hin Hall]. split; by rewrite <- Hp. Qed.

Lemma is_maximum_perm (x : Qc) (l l' : list Qc) :
  l ≡ₚ l' -> is_maximum x l -> is_maximum x l'.
Proof. intros Hp [Hin Hall]. split; by rewrite <- Hp. Qed.

Lemma existsb_perm (cs1 cs2 : list click) :
  cs1 ≡ₚ cs2 -> existsb c_is_fraud cs1 = existsb c_is_fraud cs2.
Proof.
  induction 1 as [|c l l' _ IH|c c' l|l l' l'' _ IH1 _ IH2]; cbn.
  - done.
  - by rewrite IH.
  - by destruct (c_is_fraud c), (c_is_fraud c').
  - by rewrite IH1.
Qed.

Lemma fold_click_order (r : summary_row) (cs1 cs2 : list click) :
  cs1 ≡ₚ cs2 ->
  min_gap (foldl fold_click r cs1) = min_gap (foldl fold_click r cs2)
  /\ max_gap (foldl fold_click r cs1) = max_gap (foldl fold_click r cs2)
  /\ ss_is_fraud (foldl fold_click r cs1)
     = ss_is_fraud (foldl fold_click r cs2).
Proof.
  intros Hp. rewrite !min_gap_foldl, !max_gap_foldl, !is_fraud_foldl.
  assert (c_time_gap_seconds <$> cs1 ≡ₚ c_time_gap_seconds <$> cs2) as Hg
    by by rewrite Hp.
  split; [|split].
  - eapply is_minimum_unique; [apply foldl_new_min_gap_minimum|].
    eapply is_minimum_perm; [|apply foldl_new_min_gap_minimum].
    unfold positive_gaps. by rewrite Hg.
  - eapply is_maximum_unique; [apply foldl_new_max_gap_maximum|].
    eapply is_maximum_perm; [|apply foldl_new_max_gap_maximum].
    by rewrite Hg.
  - by rewrite (existsb_perm _ _ Hp).
Qed.

(** X5.  For a session that has a row, [min_gap], [max_gap] and [is_fraud]
    do not depend on the order in which the later clicks are applied: two
    sequences of calls that are permutations of each other leave the same
    three values. *)
Theorem reductions_ignore_the_order (d : db) (sid : string)
    (r : summary_row) (cs1 cs2 : list click) :
  session_summary d !! sid = Some r ->
  ads_known d cs1 ->
  cs1 ≡ₚ cs2 ->
  exists r1 r2,
    row_after d cs1 sid = Some r1
    /\ row_after d cs2 sid = Some r2
    /\ min_gap r1 = min_gap r2
    /\ max_gap r1 = max_gap r2
    /\ ss_is_fraud r1 = ss_is_fraud r2.
Proof.
  intros Hr Hads Hp.
  assert (ads_known d cs2) as Hads2 by (unfold ads_known in *; by rewrite <- Hp).
  destruct (apply_clicks_existing cs1 d sid r Hr Hads)
    as (d1 & Hrun1 & _ & Hrow1).
  destruct (apply_clicks_existing cs2 d sid r Hr Hads2)
    as (d2 & Hrun2 & _ & Hrow2).
  eexists _, _. unfold row_after. rewrite Hrun1, Hrun2. cbn.
  split; [exact Hrow1|]. split; [exact Hrow2|].
  apply fold_click_order. unfold for_session. by rewrite Hp.
Qed.

Lemma reductions_ignore_the_order_witness :
  let a := s1_click 2 1 (dec 3 1) true (dec 9 10) "High" in
  let b := s1_click 3 2 (dec 1 2) false (dec 1 50) "Low" in
  exists r1 r2,
    row_after after_first_click [a; b] "s1" = Some r1
    /\ row_after after_first_click [b; a] "s1" = Some r2
    /\ min_gap r1 = min_gap r2
    /\ max_gap r1 = max_gap r2
    /\ ss_is_fraud r1 = ss_is_fraud r2.
Proof.
  intros a b.
  apply (reductions_ignore_the_order after_first_click "s1"
           (default (first_click "" a)
              (session_summary after_first_click !! "s1")) [a; b] [b; a]).
  - vm_compute; reflexivity.
  - unfold ads_known. repeat constructor; vm_compute; eauto.
  - apply Permutation_swap.
Defined.

(** * Further properties of the pipeline *)




(** X7.  What [predict] answers is what it stores.  After a request that
    returned a response, [click_logs] has one more row, holding the fields
    of the request, the advertiser the catalogue gives for the ad, and the
    verdict, probability, tier and model name of the response; and the
    summary of the session holds the same verdict-independent fields:
    probability, tier, model name, click count and duration. *)
Theorem predict_stores_its_answer (g : globals) (d d' : db) (clk : clock)
    (click : ClickData) (r : PredictionResponse) :
  predict g d clk click = (Returned r, d') ->
  exists a row,
    ads d !! ad_id click = Some a
    /\ click_logs d' = click_logs d ++
         [ {| cl_ad_id := ad_id click;
              cl_advertiser_id := ad_advertiser_id a;
              cl_session_id := session_id click;
              cl_clicks_per_session := clicks_per_session click;
              cl_time_gap_seconds := time_gap_seconds click;
              cl_session_duration_minutes := session_duration_minutes click;
              cl_user_agent_category := user_agent_category click;
              cl_is_fraud := pr_is_fraud r;
              cl_fraud_probability := pr_fraud_probability r;
              cl_risk_level := pr_risk_level r;
              cl_model_used := pr_model_used r;
              cl_clicked_at := now_ist clk |} ]
    /\ session_summary d' !! session_id click = Some row
    /\ ss_fraud_probability row = pr_fraud_probability r
    /\ ss_risk_level row = pr_risk_level r
    /\ ss_model_used row = pr_model_used r
    /\ ss_clicks_per_session row = clicks_per_session click
    /\ ss_session_duration_minutes row = session_duration_minutes click
    /\ (pr_is_fraud r = true -> ss_is_fraud row = true).
Proof.
  unfold predict.
  destruct (classifier g) as [clf|]; [|done].
  destruct (get_ad_with_advertiser d (ad_id click)) as [[info|]|] eqn:Hinfo;
    [|done..].
  destruct (scaler g) as [sc|]; [|done].
  destruct (model_name g) as [name|]; [|done].
  destruct (get_ad_with_advertiser_Some _ _ _ Hinfo) as (_ & Ha & _).
  match goal with
  | |- context [log_click ?a ?b ?c ?e ?f ?h ?i ?j ?k ?l ?m ?o ?q] =>
      destruct (log_click a b c e f h i j k l m o q) as [[cid d2]|] eqn:Hl;
      [|done]
  end.
  intros [= <- <-]. cbn [pr_is_fraud pr_fraud_probability pr_risk_level
                          pr_model_used].
  destruct (log_click_Some _ _ _ _ _ _ _ _ _ _ _ _ _ _ _ Hl)
    as (_ & a' & _ & Hlogs & _ & Hss & _ & _).
  exists (fst info). eexists. split; [done|]. split; [exact Hlogs|].
  split; [rewrite Hss; apply lookup_insert_eq|].
  cbn. destruct (session_summary d !! session_id click) as [r0|]; cbn.
  - repeat split; try done.
    + by destruct (ss_is_fraud r0 || _).
    + by destruct (ss_is_fraud r0 || _).
    + intros ->. by rewrite orb_true_r.
  - done.
Qed.

Lemma predict_stores_its_answer_witness :
  let result := predict (loaded (dec 9 10)) sample_db sample_clock
                  (first_request 1) in
  exists a row,
    ads sample_db !! 1%Z = Some a
    /\ length (click_logs (snd result)) = 1%nat
    /\ session_summary (snd result) !! "s1" = Some row
    /\ ss_fraud_probability row = dec 9 10
    /\ ss_risk_level row = "High"
    /\ ss_is_fraud row = true.
Proof.
  intros result.
  destruct (predict_stores_its_answer (loaded (dec 9 10)) sample_db
              (snd result) sample_clock (first_request 1)
              {| pr_is_fraud := true;
                 pr_fraud_probability := dec 9 10;
                 pr_risk_level := "High";
                 pr_model_used := "ANN Click Fraud Detection Model" |})
    as (a & row & Ha & Hlogs & Hrow & Hprob & Hrisk & _ & _ & _ & Hflag).
  - vm_compute; reflexivity.
  - exists a, row. split; [exact Ha|]. split; [by rewrite Hlogs|].
    split; [exact Hrow|]. split; [exact Hprob|]. split; [exact Hrisk|].
    by apply Hflag.
Defined.

Lemma predict_Returned_inv (g : globals) (d d' : db) (clk : clock)
    (click : ClickData) (r : PredictionResponse) :
  predict g d clk click = (Returned r, d') ->
  exists raw,
    pr_fraud_probability r = py_max raw (dec 1 1000)
    /\ pr_is_fraud r = verdict (pr_fraud_probability r)
    /\ pr_risk_level r = get_risk_level (pr_fraud_probability r).
Proof.
  unfold predict.
  destruct (classifier g) as [clf|]; [|done].
  destruct (get_ad_with_advertiser d (ad_id click)) as [[info|]|];
    [|done..].
  destruct (scaler g) as [sc|]; [|done].
  destruct (model_name g); [|done].
  match goal with
  | |- context [log_click ?a ?b ?c ?e ?f ?h ?i ?j ?k ?l ?m ?o ?q] =>
      destruct (log_click a b c e f h i j k l m o q) as [[cid d2]|]
  end; [|done].
  intros [= <- _]. by exists (clf (sc (build click))).
Qed.

Lemma tier_and_verdict (p : Qc) :
  get_risk_level p ∈ ["Low"; "Medium"; "High"]
  /\ (get_risk_level p = "High" -> verdict p = true)
  /\ (get_risk_level p = "Low" -> verdict p = false).
Proof.
  unfold get_risk_level, verdict.
  destruct (decide (p < dec 1 10)) as [Hlow|Hnlow];
    [|destruct (decide (p < dec 8 10)) as [Hmed|Hhigh]].
  - split; [set_solver|]. split; [done|]. intros _.
    apply bool_decide_eq_false. apply Qclt_not_le.
    by eapply Qclt_trans; [exact Hlow|].
  - split; [set_solver|]. done.
  - split; [set_solver|]. split; [|done]. intros _.
    apply bool_decide_eq_true. apply Qcnot_lt_le in Hhigh.
    by eapply Qcle_trans; [|exact Hhigh].
Qed.

(** X8.  Whatever the classifier answers, also outside [0,1], a response
    of [predict] has a probability of at least 0.001, one of the three
    tiers, and a verdict that agrees with the tier: High only with a true
    verdict, Low only with a false one. *)
Theorem answer_is_coherent (g : globals) (d d' : db) (clk : clock)
    (click : ClickData) (r : PredictionResponse) :
  predict g d clk click = (Returned r, d') ->
  dec 1 1000 <= pr_fraud_probability r
  /\ pr_risk_level r ∈ ["Low"; "Medium"; "High"]
  /\ (pr_risk_level r = "High" -> pr_is_fraud r = true)
  /\ (pr_risk_level r = "Low" -> pr_is_fraud r = false).
Proof.
  intros Hp.
  destruct (predict_Returned_inv _ _ _ _ _ _ Hp) as (raw & Hprob & -> & ->).
  split; [rewrite Hprob; apply py_max_ge_r|].
  apply tier_and_verdict.
Qed.

(** A classifier that answers -3. *)
Lemma answer_is_coherent_witness :
  let result := predict (loaded (dec (-3) 1)) sample_db sample_clock
                  (first_request 1) in
  fst result
    = Returned {| pr_is_fraud := false;
                  pr_fraud_probability := dec 1 1000;
                  pr_risk_level := "Low";
                  pr_model_used := "ANN Click Fraud Detection Model" |}
  /\ dec 1 1000 <= dec 1 1000
  /\ "Low" ∈ ["Low"; "Medium"; "High"]
  /\ ("Low" = "High" -> false = true)
  /\ ("Low" = "Low" -> false = false).
Proof.
  intros result. split; [vm_compute; reflexivity|].
  apply (answer_is_coherent (loaded (dec (-3) 1)) sample_db (snd result)
           sample_clock (first_request 1)
           {| pr_is_fraud := false;
              pr_fraud_probability := dec 1 1000;
              pr_risk_level := "Low";
              pr_model_used := "ANN Click Fraud Detection Model" |}).
  vm_compute; reflexivity.
Defined.

(** * Further properties of [FeatureBuilder.build] *)

(** The three signals of a click. *)
Lemma bot_score_cases (click : ClickData) :
  bot_likelihood_score (build click)
  = signal (bool_decide (10 < clicks_per_session click)%Z) (dec 3 10)
    + signal (bool_decide (time_gap_seconds click < 1)) (dec 4 10)
    + signal (bool_decide (dec 8 1 < click_frequency (build click)))
        (dec 3 10).
Proof.
  unfold build, signal. cbn.
  repeat case_decide; repeat case_bool_decide; try done;
    apply Qc_is_canon; reflexivity.
Qed.

(** X9.  The bot score is the sum of the weights of the signals that fire,
    and one of 0, 0.3, 0.4, 0.6, 0.7 and 1: the sum never exceeds 1, so the
    cap at 1.0 never cuts anything off. *)
Theorem bot_score_values (click : ClickData) :
  bot_likelihood_score (build click)
  = signal (bool_decide (10 < clicks_per_session click)%Z) (dec 3 10)
    + signal (bool_decide (time_gap_seconds click < 1)) (dec 4 10)
    + signal (bool_decide (dec 8 1 < click_frequency (build click)))
        (dec 3 10)
  /\ bot_likelihood_score (build click)
     ∈ [0; dec 3 10; dec 4 10; dec 6 10; dec 7 10; 1]
  /\ 0 <= bot_likelihood_score (build click) <= 1.
Proof.
  split; [apply bot_score_cases|]. rewrite bot_score_cases. unfold signal.
  repeat case_bool_decide;
    (split; [rewrite !elem_of_cons|split; done]).
  - do 5 right. left. by apply Qc_is_canon.
  - do 4 right. left. by apply Qc_is_canon.
  - do 3 right. left. by apply Qc_is_canon.
  - do 1 right. left. by apply Qc_is_canon.
  - do 4 right. left. by apply Qc_is_canon.
  - do 2 right. left. by apply Qc_is_canon.
  - do 1 right. left. by apply Qc_is_canon.
  - left. by apply Qc_is_canon.
Qed.

(** The flags of the row as functions of the three signals. *)
Lemma build_flags (click : ClickData) :
  let s1 := bool_decide (10 < clicks_per_session click)%Z in
  let s2 := bool_decide (time_gap_seconds click < 1) in
  let s3 := bool_decide (dec 8 1 < click_frequency (build click)) in
  device_ip_reputation (build click)
    = (if s2 && (s1 || s3) then "Bad" else "Good")
  /\ keystrokes_detected (build click)
     = (if s2 && (s1 || s3) then 0 else 2)%Z
  /\ VPN_usage (build click) = (if s1 && s2 && s3 then 1 else 0)%Z
  /\ proxy_usage (build click) = (if s1 && s2 && s3 then 1 else 0)%Z.
Proof.
  unfold build. cbn.
  destruct (decide (10 < clicks_per_session click)%Z) as [H1|H1],
    (decide (time_gap_seconds click < 1)) as [H2|H2],
    (decide (dec 8 1 < Qc_of_Z (clicks_per_session click)
                        / py_max (session_duration_minutes click) (dec 1 10)))
      as [H3|H3];
    rewrite ?(bool_decide_eq_true_2 _ H1), ?(bool_decide_eq_false_2 _ H1),
      ?(bool_decide_eq_true_2 _ H2), ?(bool_decide_eq_false_2 _ H2),
      ?(bool_decide_eq_true_2 _ H3), ?(bool_decide_eq_false_2 _ H3);
    repeat split; reflexivity.
Qed.

(** X10.  The VPN and the proxy flag are equal, and are 1 exactly when all
    three signals fire.  The IP reputation is Bad exactly when the gap is
    under a second and one of the other two signals fires, and the
    keystroke count is 0 exactly when the reputation is Bad, and 2
    otherwise. *)
Theorem flags_follow_the_signals (click : ClickData) :
  VPN_usage (build click) = proxy_usage (build click)
  /\ (VPN_usage (build click) = 1%Z
      <-> (10 < clicks_per_session click)%Z
          /\ time_gap_seconds click < 1
          /\ dec 8 1 < click_frequency (build click))
  /\ (VPN_usage (build click) = 1%Z \/ VPN_usage (build click) = 0%Z)
  /\ (device_ip_reputation (build click) = "Bad"
      <-> time_gap_seconds click < 1
          /\ ((10 < clicks_per_session click)%Z
              \/ dec 8 1 < click_frequency (build click)))
  /\ (keystrokes_detected (build click) = 0%Z
      <-> device_ip_reputation (build click) = "Bad")
  /\ (keystrokes_detected (build click) = 2%Z
      <-> device_ip_reputation (build click) = "Good").
Proof.
  destruct (build_flags click) as (-> & -> & -> & ->).
  repeat case_bool_decide; cbn; repeat split; try done; try tauto;
    try (intros; exfalso; discriminate); intuition discriminate.
Qed.

(** X11.  The scroll depth is ten per click, capped at 100, and the mouse
    movement is forty per click, capped at 400: the mouse movement is always
    four times the scroll depth, and from ten clicks on both are at their
    cap.  The click duration and the time since the last click are both the
    gap of the request. *)
Theorem movement_proxies (click : ClickData) :
  (scroll_depth (build click) <= 100)%Z
  /\ (mouse_movement (build click) <= 400)%Z
  /\ mouse_movement (build click) = (4 * scroll_depth (build click))%Z
  /\ ((clicks_per_session click <= 10)%Z ->
      scroll_depth (build click) = (10 * clicks_per_session click)%Z)
  /\ ((10 <= clicks_per_session click)%Z ->
      scroll_depth (build click) = 100%Z
      /\ mouse_movement (build click) = 400%Z)
  /\ click_duration (build click) = time_gap_seconds click
  /\ time_since_last_click (build click) = time_gap_seconds click.
Proof.
  unfold build, py_min_int. cbn.
  repeat case_decide; repeat split; intros; lia.
Qed.





(** * Accounts and ads *)

Lemma email_taken_iff (d : db) (email : string) :
  email_taken d email
  <-> exists i r, advertisers d !! i = Some r /\ adv_email r = email.
Proof. unfold email_taken. apply map_Exists_lookup. Qed.

Lemma authenticate_sound hash d email password info :
  authenticate_advertiser hash d email password = Some info ->
  exists r, advertisers d !! ai_id info = Some r
    /\ adv_email r = email
    /\ adv_password_hash r = hash password
    /\ info = info_of (ai_id info) r.
Proof.
  unfold authenticate_advertiser.
  destruct (filter _ (map_to_list (advertisers d))) as [|[i r] rows] eqn:Hf;
    [done|].
  intros [= <-]. exists r.
  assert ((i, r) ∈ filter
            (fun ir : Z * advertiser_row =>
               adv_email ir.2 = email
               /\ adv_password_hash ir.2 = hash password)
            (map_to_list (advertisers d))) as Hin
    by (rewrite Hf; apply list_elem_of_here).
  apply list_elem_of_filter in Hin as [[He Hp] Hin].
  apply elem_of_map_to_list in Hin. done.
Qed.

Lemma authenticate_complete hash d email password i r :
  emails_unique d ->
  advertisers d !! i = Some r ->
  adv_email r = email ->
  adv_password_hash r = hash password ->
  authenticate_advertiser hash d email password = Some (info_of i r).
Proof.
  intros Huniq Hr He Hp.
  destruct (authenticate_advertiser hash d email password) as [info|] eqn:Ha.
  - destruct (authenticate_sound _ _ _ _ _ Ha) as (r' & Hr' & He' & _ & ->).
    assert (ai_id info = i) as Hi
      by (eapply Huniq; eauto; congruence).
    rewrite Hi in Hr' |- *. congruence.
  - exfalso. unfold authenticate_advertiser in Ha.
    destruct (filter _ (map_to_list (advertisers d))) as [|[j r'] rows] eqn:Hf;
      [|done].
    assert ((i, r) ∈ filter
              (fun ir : Z * advertiser_row =>
                 adv_email ir.2 = email
                 /\ adv_password_hash ir.2 = hash password)
              (map_to_list (advertisers d))) as Hin.
    { apply list_elem_of_filter. split; [done|].
      by apply elem_of_map_to_list. }
    rewrite Hf in Hin. by apply not_elem_of_nil in Hin.
Qed.

(** X13.  Logging in succeeds exactly for an address and a password whose
    hash are those of one account, and then answers the id, the name and
    the address of that account; an unknown address or a password with
    another hash is answered with [None]. *)
Theorem authentication_is_by_row (hash : string -> string) (d : db)
    (email password : string) (info : advertiser_info) :
  emails_unique d ->
  authenticate_advertiser hash d email password = Some info
  <-> exists r, advertisers d !! ai_id info = Some r
        /\ adv_email r = email
        /\ adv_password_hash r = hash password
        /\ ai_name info = adv_name r
        /\ ai_email info = email.
Proof.
  intros Huniq. split.
  - intros Ha.
    destruct (authenticate_sound _ _ _ _ _ Ha) as (r & Hr & He & Hp & Hi).
    exists r. rewrite Hi. cbn. done.
  - intros (r & Hr & He & Hp & Hn & Hm).
    rewrite (authenticate_complete hash d email password (ai_id info) r)
      by done.
    f_equal. destruct info as [i n m]. unfold info_of. cbn in *. congruence.
Qed.

Lemma create_advertiser_taken hash d rowid name email password :
  email_taken d email ->
  create_advertiser hash d rowid name email password = (None, d).
Proof. intros H. unfold create_advertiser. by rewrite decide_True. Qed.

Lemma create_advertiser_free hash d rowid name email password :
  ~ email_taken d email ->
  create_advertiser hash d rowid name email password
  = (Some rowid,
     with_advertisers d
       (<[rowid := {| adv_name := name; adv_email := email;
                      adv_password_hash := hash password |}]>
          (advertisers d))).
Proof. intros H. unfold create_advertiser. by rewrite decide_False. Qed.

Lemma insert_keeps_emails_unique d rowid r :
  emails_unique d ->
  ~ email_taken d (adv_email r) ->
  emails_unique (with_advertisers d (<[rowid := r]> (advertisers d))).
Proof.
  intros Huniq Hfree i j r1 r2. cbn.
  rewrite email_taken_iff in Hfree.
  destruct (decide (i = rowid)) as [->|Hi], (decide (j = rowid)) as [->|Hj];
    [done|..].
  - rewrite lookup_insert_eq, lookup_insert_ne by done.
    intros [= <-] Hr2 He. destruct Hfree. eauto.
  - rewrite lookup_insert_eq, lookup_insert_ne by done.
    intros Hr1 [= <-] He. destruct Hfree. eauto.
  - rewrite !lookup_insert_ne by done. apply Huniq.
Qed.

Lemma sample_db_emails_unique : emails_unique sample_db.
Proof.
  intros i j r1 r2 Hi Hj _. cbn in Hi, Hj.
  apply lookup_singleton_Some in Hi as [<- _].
  by apply lookup_singleton_Some in Hj as [<- _].
Qed.

Lemma accounts_db_emails_unique : emails_unique accounts_db.
Proof.
  unfold accounts_db. rewrite create_advertiser_free.
  - apply insert_keeps_emails_unique; [apply sample_db_emails_unique|].
    apply (bool_decide_unpack _). by vm_compute.
  - apply (bool_decide_unpack _). by vm_compute.
Qed.

Lemma authentication_is_by_row_witness :
  authenticate_advertiser sample_hash accounts_db
    "marketing@fashionbrand.com" "demo123"
  = Some {| ai_id := 2; ai_name := "FashionBrand";
            ai_email := "marketing@fashionbrand.com" |}.
Proof.
  apply (authentication_is_by_row sample_hash accounts_db
           "marketing@fashionbrand.com" "demo123"
           {| ai_id := 2; ai_name := "FashionBrand";
              ai_email := "marketing@fashionbrand.com" |}).
  - exact accounts_db_emails_unique.
  - eexists. split; [vm_compute; reflexivity|]. done.
Defined.

(** X14.  [create_advertiser] answers [None] exactly when some account
    already has the address, and then leaves the database as it is.
    Otherwise it answers the id of the new row, which holds the name, the
    address and the hash of the password; the other accounts, the ads, the
    click log and the summaries are as before, and still no two accounts
    share an address. *)
Theorem create_advertiser_keeps_addresses_unique (hash : string -> string)
    (d : db) (rowid : Z) (name email password : string) :
  emails_unique d ->
  advertisers d !! rowid = None ->
  let result := create_advertiser hash d rowid name email password in
  emails_unique result.2
  /\ (result.1 = None
      <-> exists i r, advertisers d !! i = Some r /\ adv_email r = email)
  /\ (result.1 = None -> result.2 = d)
  /\ (result.1 <> None ->
      result.1 = Some rowid
      /\ advertisers result.2 !! rowid
         = Some {| adv_name := name; adv_email := email;
                   adv_password_hash := hash password |}
      /\ (forall i r, advertisers d !! i = Some r ->
                      advertisers result.2 !! i = Some r)
      /\ ads result.2 = ads d
      /\ click_logs result.2 = click_logs d
      /\ session_summary result.2 = session_summary d).
Proof.
  intros Huniq Hfresh result. subst result.
  destruct (decide (email_taken d email)) as [Ht|Hf].
  - rewrite create_advertiser_taken by done. cbn.
    split; [done|]. split; [|done]. split; [|done].
    intros _. by apply email_taken_iff.
  - rewrite create_advertiser_free by done. cbn.
    split; [by apply insert_keeps_emails_unique|].
    split; [split; [done|]; intros H; by apply email_taken_iff in H|].
    split; [done|]. intros _. split; [done|].
    split; [apply lookup_insert_eq|]. split; [|done].
    intros i r Hr. rewrite lookup_insert_ne; [done|]. congruence.
Qed.

Lemma create_advertiser_keeps_addresses_unique_witness :
  let taken := create_advertiser sample_hash accounts_db 3 "Other"
                 "marketing@fashionbrand.com" "secret" in
  emails_unique taken.2
  /\ (taken.1 = None
      <-> exists i r, advertisers accounts_db !! i = Some r
                      /\ adv_email r = "marketing@fashionbrand.com")
  /\ taken.1 = None
  /\ taken.2 = accounts_db.
Proof.
  intros taken.
  destruct (create_advertiser_keeps_addresses_unique sample_hash accounts_db
              3 "Other" "marketing@fashionbrand.com" "secret")
    as (Hu & Hiff & Hsame & _).
  - exact accounts_db_emails_unique.
  - reflexivity.
  - split; [exact Hu|]. split; [exact Hiff|].
    split; [reflexivity|]. apply Hsame. reflexivity.
Defined.

(** X15.  An account that was just created can log in: with the address
    and the password it was created with, [authenticate_advertiser] answers
    the new id with the name and the address, and so does
    [get_advertiser_by_id]; with a password that has another hash it
    answers [None]. *)
Theorem created_account_can_log_in (hash : string -> string) (d d' : db)
    (rowid id : Z) (name email password : string) :
  emails_unique d ->
  advertisers d !! rowid = None ->
  create_advertiser hash d rowid name email password = (Some id, d') ->
  authenticate_advertiser hash d' email password
    = Some {| ai_id := id; ai_name := name; ai_email := email |}
  /\ get_advertiser_by_id d' id
     = Some {| ai_id := id; ai_name := name; ai_email := email |}
  /\ (forall other, hash other <> hash password ->
        authenticate_advertiser hash d' email other = None).
Proof.
  intros Huniq Hfresh.
  destruct (decide (email_taken d email)) as [Ht|Hf];
    [by rewrite create_advertiser_taken|].
  rewrite create_advertiser_free by done. intros [= <- <-].
  set (r := {| adv_name := name; adv_email := email;
               adv_password_hash := hash password |}).
  assert (emails_unique (with_advertisers d (<[rowid:=r]> (advertisers d))))
    as Huniq' by by apply insert_keeps_emails_unique.
  assert (advertisers (with_advertisers d (<[rowid:=r]> (advertisers d)))
            !! rowid = Some r) as Hr by apply lookup_insert_eq.
  split; [|split].
  - by rewrite (authenticate_complete hash _ email password rowid r).
  - unfold get_advertiser_by_id. by rewrite Hr.
  - intros other Hother.
    destruct (authenticate_advertiser hash _ email other) as [info|] eqn:Ha;
      [|done].
    destruct (authenticate_sound _ _ _ _ _ Ha) as (r' & Hr' & He & Hp & _).
    assert (ai_id info = rowid) as Hi by (eapply Huniq'; eauto).
    rewrite Hi, Hr in Hr'. injection Hr' as <-. by destruct Hother.
Qed.

Lemma created_account_can_log_in_witness :
  authenticate_advertiser sample_hash accounts_db
    "marketing@fashionbrand.com" "demo123"
    = Some {| ai_id := 2; ai_name := "FashionBrand";
              ai_email := "marketing@fashionbrand.com" |}
  /\ get_advertiser_by_id accounts_db 2
     = Some {| ai_id := 2; ai_name := "FashionBrand";
               ai_email := "marketing@fashionbrand.com" |}
  /\ (forall other, sample_hash other <> sample_hash "demo123" ->
        authenticate_advertiser sample_hash accounts_db
          "marketing@fashionbrand.com" other = None).
Proof.
  apply (created_account_can_log_in sample_hash sample_db accounts_db 2 2
           "FashionBrand" "marketing@fashionbrand.com" "demo123").
  - exact sample_db_emails_unique.
  - reflexivity.
  - vm_compute; reflexivity.
Defined.

(** X16.  [create_ad] always stores the ad, also for an advertiser id that
    has no account, and leaves the other ads as they are.  The new ad is
    served by [get_ad_with_advertiser] exactly when its advertiser has an
    account: when it has, a loaded model scores a click on the ad, and when
    it has not, [predict] answers 404 for the ad that was just created.
    The row ids SQLite assigns are within signed 64 bits; for any other
    number the lookup ends in the [OverflowError] of the binding. *)
Theorem created_ad_needs_its_advertiser (d : db) (rowid adv : Z)
    (title description image_url target_url : string) :
  ads d !! rowid = None ->
  let result := create_ad d rowid adv title description image_url
                  target_url in
  let new_ad := {| ad_advertiser_id := adv; ad_title := title;
                   ad_description := Some description;
                   ad_image_url := Some image_url;
                   ad_target_url := Some target_url;
                   ad_is_active := true |} in
  result.1 = rowid
  /\ ads result.2 !! rowid = Some new_ad
  /\ (forall i, i <> rowid ->
        get_ad_with_advertiser result.2 i = get_ad_with_advertiser d i)
  /\ get_ad_with_advertiser result.2 rowid
     = (if fits_int64 rowid
        then Some ((fun r => (new_ad, adv_name r)) <$> advertisers d !! adv)
        else None)
  /\ forall g clk click,
       is_Some (classifier g) -> ad_id click = rowid ->
       match advertisers d !! adv with
       | None =>
           predict g result.2 clk click
           = (if fits_int64 rowid
              then HTTPException 404 "Ad not found"
              else Uncaught, result.2)
       | Some _ =>
           fst (predict g result.2 clk click)
           <> HTTPException 404 "Ad not found"
       end.
Proof.
  intros Hfresh result new_ad. subst result. cbn [fst snd create_ad].
  assert (get_ad_with_advertiser
            (with_ads d (<[rowid := new_ad]> (ads d))) rowid
          = (if fits_int64 rowid
             then Some ((fun r => (new_ad, adv_name r))
                          <$> advertisers d !! adv)
             else None)) as Hget.
  { unfold get_ad_with_advertiser. destruct (fits_int64 rowid); [|done].
    cbn. rewrite lookup_insert_eq. cbn.
    by destruct (advertisers d !! adv). }
  split; [done|]. split; [apply lookup_insert_eq|]. split; [|split; [done|]].
  - intros i Hi. unfold get_ad_with_advertiser. cbn.
    by rewrite lookup_insert_ne.
  - intros g clk click [clf Hclf] Had. unfold predict.
    rewrite Hclf, Had. fold new_ad. rewrite Hget.
    destruct (fits_int64 rowid);
      [|by destruct (advertisers d !! adv)].
    destruct (advertisers d !! adv) as [r|]; cbn; [|done].
    destruct (scaler g); [|done]. destruct (model_name g); [|done].
    match goal with
    | |- context [log_click ?a ?b ?c ?e ?f ?h ?i ?j ?k ?l ?m ?o ?q] =>
        destruct (log_click a b c e f h i j k l m o q) as [[cid d2]|]
    end; done.
Qed.

(** An ad created for advertiser 9, who has no account. *)
Lemma created_ad_needs_its_advertiser_witness :
  let result := create_ad sample_db 2 9 "Ghost" "no owner" "/g.jpg"
                  "https://ghost" in
  result.1 = 2%Z
  /\ get_ad_with_advertiser result.2 2 = Some None
  /\ predict (loaded (dec 9 10)) result.2 sample_clock (first_request 2)
     = (HTTPException 404 "Ad not found", result.2).
Proof.
  intros result.
  destruct (created_ad_needs_its_advertiser sample_db 2 9 "Ghost" "no owner"
              "/g.jpg" "https://ghost")
    as (Hid & _ & _ & Hget & Hpredict); [reflexivity|].
  split; [exact Hid|]. split; [exact Hget|].
  apply (Hpredict (loaded (dec 9 10)) sample_clock (first_request 2)).
  - vm_compute. eauto.
  - reflexivity.
Defined.

(** * Statistics *)

Lemma sums_of_cases (rows : list click_log_row) :
  (foldr Z.add 0 (case_fraud <$> rows)
   + foldr Z.add 0 (case_genuine <$> rows) = sql_count rows)%Z
  /\ (0 <= foldr Z.add 0 (case_fraud <$> rows))%Z
  /\ (0 <= foldr Z.add 0 (case_genuine <$> rows))%Z.
Proof.
  unfold sql_count. induction rows as [|cl rows IH]; [done|].
  cbn [fmap list_fmap foldr length]. unfold case_fraud, case_genuine in *.
  destruct (cl_is_fraud cl); lia.
Qed.

(** X17.  The totals of [get_advertiser_stats] count the logged clicks on
    the ads of the advertiser.  For an advertiser without any such click
    the total is 0 and the fraud count, the genuine count and the average
    are [NULL]; otherwise the fraud and the genuine count are numbers that
    add up to the total, and the average is a number. *)
Theorem stats_totals_add_up (d : db) (advertiser_id : Z) :
  let s := get_advertiser_stats d advertiser_id in
  total_clicks s
    = Z.of_nat (length (clicks_of_advertiser d advertiser_id))
  /\ (total_clicks s = 0%Z ->
      fraud_clicks s = None /\ genuine_clicks s = None
      /\ avg_fraud_prob s = None)
  /\ (total_clicks s <> 0%Z ->
      exists f g, fraud_clicks s = Some f /\ genuine_clicks s = Some g
        /\ (f + g = total_clicks s)%Z /\ (0 <= f)%Z /\ (0 <= g)%Z
        /\ is_Some (avg_fraud_prob s)).
Proof.
  unfold get_advertiser_stats. cbn.
  destruct (sums_of_cases (clicks_of_advertiser d advertiser_id))
    as (Hsum & Hf & Hg).
  destruct (clicks_of_advertiser d advertiser_id) as [|cl rows];
    [by repeat split|].
  split; [done|]. split; [done|]. intros _.
  eexists _, _. repeat split; done.
Qed.

Lemma predict_Returned_log (g : globals) (d d' : db) (clk : clock)
    (click : ClickData) (r : PredictionResponse) :
  predict g d clk click = (Returned r, d') ->
  exists a row,
    ads d !! ad_id click = Some a
    /\ ads d' = ads d
    /\ click_logs d' = click_logs d ++ [row]
    /\ cl_ad_id row = ad_id click
    /\ cl_is_fraud row = pr_is_fraud r
    /\ cl_fraud_probability row = pr_fraud_probability r.
Proof.
  unfold predict.
  destruct (classifier g) as [clf|]; [|done].
  destruct (get_ad_with_advertiser d (ad_id click)) as [[info|]|] eqn:Hinfo;
    [|done..].
  destruct (scaler g) as [sc|]; [|done].
  destruct (model_name g) as [name|]; [|done].
  destruct (get_ad_with_advertiser_Some _ _ _ Hinfo) as (_ & Ha & _).
  match goal with
  | |- context [log_click ?a ?b ?c ?e ?f ?h ?i ?j ?k ?l ?m ?o ?q] =>
      destruct (log_click a b c e f h i j k l m o q) as [[cid d2]|] eqn:Hl;
      [|done]
  end.
  intros [= <- <-].
  destruct (log_click_Some _ _ _ _ _ _ _ _ _ _ _ _ _ _ _ Hl)
    as (_ & a' & _ & Hlogs & _ & _ & Hads & _).
  eexists _, _. split; [exact Ha|]. split; [exact Hads|].
  split; [exact Hlogs|]. done.
Qed.

(** X18.  A click that [predict] scored is counted once, for the
    advertiser the catalogue gives for the ad, and for no other: the total
    of that advertiser grows by one and its fraud count by one when the
    verdict is true, and the totals of every other advertiser stay as they
    were. *)
Theorem scored_click_counts_for_the_owner (g : globals) (d d' : db)
    (clk : clock) (click : ClickData) (r : PredictionResponse)
    (advertiser_id : Z) :
  predict g d clk click = (Returned r, d') ->
  exists a, ads d !! ad_id click = Some a
    /\ total_clicks (get_advertiser_stats d' advertiser_id)
       = (total_clicks (get_advertiser_stats d advertiser_id)
          + (if decide (ad_advertiser_id a = advertiser_id) then 1 else 0))%Z
    /\ coalesce_Z (fraud_clicks (get_advertiser_stats d' advertiser_id))
       = (coalesce_Z (fraud_clicks (get_advertiser_stats d advertiser_id))
          + (if decide (ad_advertiser_id a = advertiser_id)
             then (if pr_is_fraud r then 1 else 0) else 0))%Z.
Proof.
  intros Hp.
  destruct (predict_Returned_log _ _ _ _ _ _ Hp)
    as (a & row & Ha & Hads & Hlogs & Hrow & Hv & _).
  exists a. split; [done|].
  unfold get_advertiser_stats, clicks_of_advertiser. cbn.
  rewrite Hlogs, Hads, filter_app.
  set (rows := filter _ (click_logs d)).
  assert (forall l, coalesce_Z (sql_sum l) = foldr Z.add 0%Z l) as Hco
    by (by intros []).
  rewrite !Hco. unfold sql_count.
  destruct (decide (ad_advertiser_id a = advertiser_id)) as [Hown|Hother].
  - rewrite filter_cons_True by (by rewrite Hrow, Ha; cbn; f_equal).
    rewrite filter_nil, fmap_app, length_app, foldr_app. cbn.
    unfold case_fraud at 1. rewrite Hv. split; [lia|].
    generalize (case_fraud <$> rows). intros l.
    induction l as [|x l IH]; cbn; [destruct (pr_is_fraud r); lia|lia].
  - rewrite filter_cons_False.
    + rewrite filter_nil, app_nil_r. split; lia.
    + rewrite Hrow, Ha. cbn. congruence.
Qed.

Lemma scored_click_counts_for_the_owner_witness :
  let result := predict (loaded (dec 9 10)) sample_db sample_clock
                  (first_request 1) in
  total_clicks (get_advertiser_stats sample_db 1) = 0%Z
  /\ total_clicks (get_advertiser_stats result.2 1) = 1%Z
  /\ coalesce_Z (fraud_clicks (get_advertiser_stats result.2 1)) = 1%Z.
Proof.
  intros result.
  destruct (scored_click_counts_for_the_owner (loaded (dec 9 10)) sample_db
              result.2 sample_clock (first_request 1)
              {| pr_is_fraud := true;
                 pr_fraud_probability := dec 9 10;
                 pr_risk_level := "High";
                 pr_model_used := "ANN Click Fraud Detection Model" |} 1)
    as (a & Ha & Htotal & Hfraud); [vm_compute; reflexivity|].
  vm_compute in Ha. injection Ha as <-.
  split; [reflexivity|]. split; [exact Htotal|exact Hfraud].
Defined.

Lemma omap_id_Some {A} (l : list A) : omap id (Some <$> l) = l.
Proof. induction l as [|x l IH]; [done|]. cbn. by rewrite IH. Qed.

Lemma from_option_fmap_Some {A B} (f : A -> B) (b : B) (l : list A) :
  from_option f b <$> (Some <$> l) = f <$> l.
Proof. induction l as [|x l IH]; [done|]. cbn. by rewrite IH. Qed.

(** X19.  For an ad of the advertiser with [k] logged clicks,
    [get_advertiser_ads] reports [k] clicks, split into fraud and genuine
    ones, while the per-ad row of [get_advertiser_stats] reports
    [max(1, k)]: its [COUNT] counts the row the left join gives an ad that
    has no click, so an ad without clicks is reported with one click, no
    fraud and a [NULL] average there, and with zero clicks and a zero
    average by [get_advertiser_ads]. *)
Theorem clickless_ad_is_counted_once (d : db) (advertiser_id ad : Z)
    (a : ad_row) :
  ads d !! ad = Some a ->
  ad_advertiser_id a = advertiser_id ->
  let k := Z.of_nat
             (length (filter (fun cl => cl_ad_id cl = ad) (click_logs d))) in
  exists b w,
    stats_row_of_ad d advertiser_id ad = Some b
    /\ ads_row_of_ad d advertiser_id ad = Some w
    /\ aw_total_clicks w = k
    /\ (aw_fraud_clicks w + aw_genuine_clicks w = k)%Z
    /\ ab_clicks b = Z.max 1 k
    /\ ab_fraud_clicks b = Some (aw_fraud_clicks w)
    /\ (k = 0%Z ->
        ab_clicks b = 1%Z /\ ab_fraud_clicks b = Some 0%Z
        /\ ab_avg_fraud_prob b = None /\ aw_avg_fraud_prob w = 0).
Proof.
  intros Ha Hown k. subst k.
  unfold stats_row_of_ad, ads_row_of_ad, left_join_clicks.
  rewrite Ha.
  destruct (decide (ad_advertiser_id a = advertiser_id)) as [_|?]; [|done].
  destruct (filter (fun cl => cl_ad_id cl = ad) (click_logs d))
    as [|cl rows] eqn:Hrows.
  - eexists _, _. repeat split; reflexivity.
  - destruct (sums_of_cases (cl :: rows)) as (Hsum & Hf & Hg).
    eexists _, _. split; [reflexivity|]. split; [reflexivity|].
    cbn [aw_total_clicks aw_fraud_clicks aw_genuine_clicks ab_clicks
         ab_fraud_clicks ab_avg_fraud_prob aw_avg_fraud_prob].
    rewrite omap_id_Some, !from_option_fmap_Some.
    unfold sql_count in *. rewrite length_fmap.
    split; [done|]. split; [exact Hsum|]. split; [cbn; lia|].
    split; [done|]. cbn. lia.
Qed.

(** The sample ad before any click. *)
Lemma clickless_ad_is_counted_once_witness :
  exists b w,
    stats_row_of_ad sample_db 1 1 = Some b
    /\ ads_row_of_ad sample_db 1 1 = Some w
    /\ aw_total_clicks w = 0%Z
    /\ (aw_fraud_clicks w + aw_genuine_clicks w = 0)%Z
    /\ ab_clicks b = 1%Z
    /\ ab_fraud_clicks b = Some (aw_fraud_clicks w)
    /\ (0%Z = 0%Z ->
        ab_clicks b = 1%Z /\ ab_fraud_clicks b = Some 0%Z
        /\ ab_avg_fraud_prob b = None /\ aw_avg_fraud_prob w = 0).
Proof.
  apply (clickless_ad_is_counted_once sample_db 1 1
           (default {| ad_advertiser_id := 0; ad_title := "";
                       ad_description := None; ad_image_url := None;
                       ad_target_url := None; ad_is_active := false |}
              (ads sample_db !! 1%Z))).
  - reflexivity.
  - reflexivity.
Defined.

(** * Sessions *)

(** X20.  [login] either refuses, exactly when no account has the address
    with that password hash, with 401 and the sessions unchanged; or it
    opens a session: the cookie it sets is then recognised by
    [get_current_advertiser], which answers the account that was
    authenticated, and the other sessions are as before. *)
Theorem login_opens_a_session (hash : string -> string) (d : db)
    (sessions : gmap string advertiser_info) (token email password : string) :
  token <> "" ->
  match login hash d sessions token email password with
  | (Raised status_code detail, sessions') =>
      status_code = 401%Z /\ sessions' = sessions
      /\ authenticate_advertiser hash d email password = None
  | (Answered cookie, sessions') =>
      cookie = token
      /\ (exists advertiser,
            authenticate_advertiser hash d email password = Some advertiser
            /\ get_current_advertiser sessions' (Some cookie)
               = Answered advertiser)
      /\ forall other, other <> token ->
           get_current_advertiser sessions' (Some other)
           = get_current_advertiser sessions (Some other)
  end.
Proof.
  intros Htoken. unfold login.
  destruct (authenticate_advertiser hash d email password) as [adv|];
    [|done].
  split; [done|]. split.
  - exists adv. split; [done|]. unfold get_current_advertiser.
    rewrite decide_False by done. by rewrite lookup_insert_eq.
  - intros other Hother. unfold get_current_advertiser.
    by rewrite lookup_insert_ne.
Qed.

Lemma login_opens_a_session_witness :
  (login sample_hash accounts_db ∅ "6f1c" "marketing@fashionbrand.com"
     "demo123").1 = Answered "6f1c"
  /\ match login sample_hash accounts_db ∅ "6f1c"
            "marketing@fashionbrand.com" "demo123" with
     | (Raised status_code detail, sessions') =>
         status_code = 401%Z /\ sessions' = ∅
         /\ authenticate_advertiser sample_hash accounts_db
              "marketing@fashionbrand.com" "demo123" = None
     | (Answered cookie, sessions') =>
         cookie = "6f1c"
         /\ (exists advertiser,
               authenticate_advertiser sample_hash accounts_db
                 "marketing@fashionbrand.com" "demo123" = Some advertiser
               /\ get_current_advertiser sessions' (Some cookie)
                  = Answered advertiser)
         /\ forall other, other <> "6f1c" ->
              get_current_advertiser sessions' (Some other)
              = get_current_advertiser ∅ (Some other)
     end.
Proof.
  split; [vm_compute; reflexivity|].
  apply (login_opens_a_session sample_hash accounts_db ∅ "6f1c"
           "marketing@fashionbrand.com" "demo123").
  done.
Defined.

(** X21.  After [logout] the cookie of the request is not recognised any
    more, whatever it was, and the sessions of the other cookies are
    untouched. *)
Theorem logout_closes_the_session (sessions : gmap string advertiser_info)
    (cookie : option string) :
  get_current_advertiser (logout sessions cookie) cookie
    = Raised 401 "Not authenticated"
  /\ forall other, Some other <> cookie ->
       get_current_advertiser (logout sessions cookie) (Some other)
       = get_current_advertiser sessions (Some other).
Proof.
  unfold logout, get_current_advertiser. destruct cookie as [sid|]; [|done].
  destruct (decide (sid = "")) as [->|Hne]; [done|].
  destruct (sessions !! sid) as [adv|] eqn:Hs.
  - rewrite lookup_delete_eq. split; [done|].
    intros other Hother. rewrite lookup_delete_ne; [done|]. congruence.
  - by rewrite Hs.
Qed.

(** X22.  [get_stats] answers only the advertiser that asks for its own
    statistics: an answer means that the cookie is that of a session of the
    advertiser whose id is in the path.  Without a session it raises 401,
    and with the session of another advertiser 403. *)
Theorem stats_are_private (sessions : gmap string advertiser_info) (d : db)
    (advertiser_id : Z) (cookie : option string) :
  match get_stats sessions d advertiser_id cookie with
  | Answered s =>
      s = get_advertiser_stats d advertiser_id
      /\ exists session_id advertiser,
           cookie = Some session_id
           /\ sessions !! session_id = Some advertiser
           /\ ai_id advertiser = advertiser_id
  | Raised status_code detail =>
      (status_code = 401%Z
       /\ get_current_advertiser sessions cookie
          = Raised 401 "Not authenticated")
      \/ (status_code = 403%Z
          /\ exists advertiser,
               get_current_advertiser sessions cookie = Answered advertiser
               /\ ai_id advertiser <> advertiser_id)
  end.
Proof.
  unfold get_stats, get_current_advertiser.
  destruct cookie as [sid|]; [|by left].
  destruct (decide (sid = "")); [by left|].
  destruct (sessions !! sid) as [adv|] eqn:Hs; [|by left].
  destruct (decide (ai_id adv <> advertiser_id)) as [Hne|He].
  - right. eauto.
  - split; [done|]. exists sid, adv. repeat split; [done|].
    by destruct (decide (ai_id adv = advertiser_id)).
Qed.

(** X23.  [signup] refuses an address that is taken, and only such an
    address, with 400 and nothing changed.  Otherwise no account had the
    address, the account is stored under the new id, the cookie it sets is
    recognised as the new account, and after a logout a [login] with the
    same address and password opens a session for the same account
    again. *)
Theorem signup_then_login (hash : string -> string) (d : db)
    (sessions : gmap string advertiser_info) (rowid : Z)
    (token token2 name email password : string) :
  emails_unique d ->
  advertisers d !! rowid = None ->
  token <> "" -> token2 <> "" ->
  let me := {| ai_id := rowid; ai_name := name; ai_email := email |} in
  ((exists i r, advertisers d !! i = Some r /\ adv_email r = email) ->
   signup hash d sessions rowid token name email password
   = (Raised 400 "Email already registered", d, sessions))
  /\ match signup hash d sessions rowid token name email password with
     | (Raised status_code detail, d', sessions') =>
         status_code = 400%Z /\ d' = d /\ sessions' = sessions
         /\ exists i r, advertisers d !! i = Some r /\ adv_email r = email
     | (Answered cookie, d', sessions') =>
         cookie = token
         /\ (forall i r, advertisers d !! i = Some r -> adv_email r <> email)
         /\ advertisers d' !! rowid
            = Some {| adv_name := name; adv_email := email;
                      adv_password_hash := hash password |}
         /\ get_current_advertiser sessions' (Some cookie) = Answered me
         /\ get_current_advertiser (logout sessions' (Some cookie))
              (Some cookie) = Raised 401 "Not authenticated"
         /\ exists sessions'',
              login hash d' (logout sessions' (Some cookie)) token2 email
                password = (Answered token2, sessions'')
              /\ get_current_advertiser sessions'' (Some token2)
                 = Answered me
     end.
Proof.
  intros Huniq Hfresh Ht Ht2 me. unfold signup.
  destruct (decide (email_taken d email)) as [Htaken|Hfree].
  - rewrite create_advertiser_taken by done.
    repeat split; try done; by apply email_taken_iff.
  - rewrite create_advertiser_free by done.
    set (r := {| adv_name := name; adv_email := email;
                 adv_password_hash := hash password |}).
    set (d' := with_advertisers d (<[rowid:=r]> (advertisers d))).
    assert (emails_unique d') as Huniq'
      by by apply insert_keeps_emails_unique.
    assert (advertisers d' !! rowid = Some r) as Hr
      by apply lookup_insert_eq.
    split; [by intros Htaken%email_taken_iff|].
    split; [done|]. split; [|split; [exact Hr|split; [|split]]].
    + intros i r0 Hi He. apply Hfree, email_taken_iff. eauto.
    + unfold get_current_advertiser. rewrite decide_False by done.
      by rewrite lookup_insert_eq.
    + unfold logout, get_current_advertiser. rewrite !decide_False by done.
      by rewrite lookup_insert_eq, lookup_delete_eq.
    + unfold login.
      rewrite (authenticate_complete hash d' email password rowid r)
        by done.
      eexists. split; [reflexivity|].
      unfold get_current_advertiser. rewrite decide_False by done.
      by rewrite lookup_insert_eq.
Qed.

(** A second advertiser signs up with a free address; the address of the
    first one is refused. *)
Lemma signup_then_login_witness :
  let me := {| ai_id := 2; ai_name := "FashionBrand";
               ai_email := "marketing@fashionbrand.com" |} in
  (signup sample_hash sample_db ∅ 2 "6f1c" "FashionBrand"
     "marketing@fashionbrand.com" "demo123").1.1 = Answered "6f1c"
  /\ ((exists i r, advertisers sample_db !! i = Some r
                   /\ adv_email r = "marketing@fashionbrand.com") ->
      signup sample_hash sample_db ∅ 2 "6f1c" "FashionBrand"
        "marketing@fashionbrand.com" "demo123"
      = (Raised 400 "Email already registered", sample_db, ∅))
  /\ match signup sample_hash sample_db ∅ 2 "6f1c" "FashionBrand"
             "marketing@fashionbrand.com" "demo123" with
     | (Raised status_code detail, d', sessions') =>
         status_code = 400%Z /\ d' = sample_db /\ sessions' = ∅
         /\ exists i r, advertisers sample_db !! i = Some r
                        /\ adv_email r = "marketing@fashionbrand.com"
     | (Answered cookie, d', sessions') =>
         cookie = "6f1c"
         /\ (forall i r, advertisers sample_db !! i = Some r ->
               adv_email r <> "marketing@fashionbrand.com")
         /\ advertisers d' !! 2%Z
            = Some {| adv_name := "FashionBrand";
                      adv_email := "marketing@fashionbrand.com";
                      adv_password_hash := sample_hash "demo123" |}
         /\ get_current_advertiser sessions' (Some cookie) = Answered me
         /\ get_current_advertiser (logout sessions' (Some cookie))
              (Some cookie) = Raised 401 "Not authenticated"
         /\ exists sessions'',
              login sample_hash d' (logout sessions' (Some cookie)) "09ab"
                "marketing@fashionbrand.com" "demo123"
              = (Answered "09ab", sessions'')
              /\ get_current_advertiser sessions'' (Some "09ab")
                 = Answered me
     end.
Proof.
  intros me. split; [vm_compute; reflexivity|].
  apply (signup_then_login sample_hash sample_db ∅ 2 "6f1c" "09ab"
           "FashionBrand" "marketing@fashionbrand.com" "demo123").
  - exact sample_db_emails_unique.
  - reflexivity.
  - done.
  - done.
Defined.




(** * Sessions of clicks are independent *)

Lemma row_after_cons d c cs sid :
  row_after d (c :: cs) sid
  = apply_click d c ≫= fun d' => row_after d' cs sid.
Proof. unfold row_after. cbn. by destruct (apply_click d c). Qed.

Lemma apply_click_agree d1 d2 c :
  ads d1 = ads d2 ->
  session_summary d1 !! c_session_id c = session_summary d2 !! c_session_id c ->
  match apply_click d1 c, apply_click d2 c with
  | Some d1', Some d2' =>
      ads d1' = ads d2'
      /\ session_summary d1' !! c_session_id c
         = session_summary d2' !! c_session_id c
  | None, None => True
  | _, _ => False
  end.
Proof.
  intros Hads Hrow. unfold apply_click, update_session_summary.
  rewrite Hads, Hrow. destruct (ads d2 !! c_ad_id c); [|done].
  destruct (session_summary d2 !! c_session_id c); cbn;
    by rewrite !lookup_insert_eq.
Qed.

Lemma row_after_agree cs sid : forall d1 d2,
  Forall (fun c => c_session_id c = sid) cs ->
  ads d1 = ads d2 ->
  session_summary d1 !! sid = session_summary d2 !! sid ->
  row_after d1 cs sid = row_after d2 cs sid.
Proof.
  induction cs as [|c cs IH]; intros d1 d2 Hall Hads Hrow.
  - unfold row_after. cbn. done.
  - apply Forall_cons in Hall as [Hc Hall]. rewrite !row_after_cons.
    pose proof (apply_click_agree d1 d2 c Hads) as Hstep.
    rewrite Hc in Hstep. specialize (Hstep Hrow).
    destruct (apply_click d1 c) as [d1'|], (apply_click d2 c) as [d2'|];
      try done.
    destruct Hstep as [Hads' Hrow']. cbn. by apply IH.
Qed.

(** X25.  The summaries of distinct sessions are independent: after any
    sequence of calls, the row of a session is the one it would have if
    only the clicks of that session had been applied, in the same order. *)
Theorem sessions_are_independent (d : db) (sid : string) (cs : list click) :
  ads_known d cs ->
  row_after d cs sid = row_after d (for_session sid cs) sid.
Proof.
  revert d. induction cs as [|c cs IH]; intros d Hads; [done|].
  assert (is_Some (apply_click d c)) as [d1 Hd1].
  { apply apply_click_is_Some. by apply Forall_cons in Hads as [? _]. }
  destruct (apply_click_inv _ _ _ Hd1) as (a & Ha & _ & Hads1 & _ & Hss).
  assert (ads_known d1 cs) as Hads' by by eapply ads_known_step.
  unfold for_session.
  destruct (decide (c_session_id c = sid)) as [Heq|Hne].
  - rewrite filter_cons_True by done.
    rewrite !row_after_cons, Hd1. cbn [mbind option_bind]. by apply IH.
  - rewrite filter_cons_False by done.
    rewrite row_after_cons, Hd1. cbn [mbind option_bind].
    rewrite IH by done.
    apply row_after_agree; [|done|].
    + unfold for_session. apply Forall_forall. intros x Hx.
      by apply list_elem_of_filter in Hx as [? _].
    + rewrite Hss. by rewrite lookup_insert_ne.
Qed.

Lemma sessions_are_independent_witness :
  let a := s1_click 1 (dec 1 2) 0 false (dec 1 50) "Low" in
  let b := s2_click (dec 7 1) true (dec 9 10) "High" in
  let c := s1_click 2 1 (dec 3 1) false (dec 1 50) "Low" in
  row_after sample_db [a; b; c] "s1" = row_after sample_db [a; c] "s1".
Proof.
  intros a b c.
  apply (sessions_are_independent sample_db "s1" [a; b; c]).
  unfold ads_known. repeat constructor; vm_compute; eauto.
Defined.
